(** * Grant checks of the OAuth authorize flow

    A shallow embedding of [pkg/auth/oauth/handlers/grant.go]: the
    [GrantCheck] orchestrator with its [HandleAuthorize] step and the four
    [GrantHandler] implementations ([emptyGrant], [autoGrant],
    [redirectGrant], [perClientGrant]), followed by the properties of the
    decision step.

    Conventions of the embedding.
    - A Go [error] value is [option error]: [None] is [nil].
    - A Go [interface{}] slot is a value of [Any], tagged by its dynamic type.
    - [*osin.AuthorizeRequest] and [http.ResponseWriter] are references to
      mutable objects: their contents live in the [State] threaded by the
      monad [M], together with the state behind the collaborators (the grant
      store, for example) and a ghost trace of what the step did.
    - Dereferences of nil pointers, which make the Go program panic, are
      outside the embedding: clients, requests and URLs are records. *)

From Stdlib Require Import String Ascii List ZArith Bool Lia.
Import ListNotations.

#[local] Open Scope list_scope.
#[local] Open Scope string_scope.

(* ================================================================= *)
(** ** Values of the collaborating packages *)

(** The Go [error] interface, observed through its [Error()] text;
    [errors_New] is [errors.New]. *)
Record error : Type := errors_New { Error : string }.

(** [user.Info] of the Kubernetes authentication package. *)
Record user_Info : Type := mkUserInfo {
  GetName : string;
  GetUID : string;
  GetGroups : list string
}.

(** Modelled from the spec: the policy names of [oauthapi.GrantHandlerType],
    a string type declared outside this file. *)
Definition GrantHandlerType : Type := string.

(** Modelled from the spec: the policy name [auto]. *)
Definition GrantHandlerAuto : GrantHandlerType := "auto".
(** Modelled from the spec: the policy name [prompt]. *)
Definition GrantHandlerPrompt : GrantHandlerType := "prompt".
(** Modelled from the spec: the policy name [deny]. *)
Definition GrantHandlerDeny : GrantHandlerType := "deny".

(** Modelled from the spec: the client record [oauthapi.OAuthClient], of
    which this file reads the [GrantMethod] field only. *)
Record OAuthClient : Type := mkOAuthClient {
  Name : string;
  GrantMethod : GrantHandlerType
}.

(** A value held in an [interface{}] slot, by dynamic type. *)
Inductive Any : Type :=
| any_nil
| any_user_Info (u : user_Info)
| any_OAuthClient (c : OAuthClient)
| any_other (dynamicType : string).

(** The type assertion [x.(user.Info)] in its two-result form. *)
Definition assert_user_Info (x : Any) : option user_Info * bool :=
  match x with
  | any_user_Info u => (Some u, true)
  | _ => (None, false)
  end.

(** The type assertion [x.( *oauthapi.OAuthClient)] in its two-result form. *)
Definition assert_OAuthClient (x : Any) : option OAuthClient * bool :=
  match x with
  | any_OAuthClient c => (Some c, true)
  | _ => (None, false)
  end.

(** [osin.Client], an interface of four getters. *)
Record Client : Type := mkClient {
  GetId : string;
  GetSecret : string;
  GetRedirectUri : string;
  GetUserData : Any
}.

(** [url.URL]. *)
Record URL : Type := mkURL {
  Scheme : string;
  Opaque : string;
  User : option (string * option string);
  Host : string;
  Path : string;
  RawQuery : string;
  Fragment : string
}.

(** The assignment [u.RawQuery = q]. *)
Definition set_RawQuery (u : URL) (q : string) : URL :=
  {| Scheme := Scheme u; Opaque := Opaque u; User := User u; Host := Host u;
     Path := Path u; RawQuery := q; Fragment := Fragment u |}.

(** [http.Request], with the fields a redirect looks at. *)
Record Request : Type := mkRequest {
  Method : string;
  req_URL : URL
}.

(** [api.Grant]. *)
Record Grant : Type := mkGrant {
  grant_Client : Client;
  grant_Scope : string;
  grant_Expiration : Z;
  grant_RedirectURI : string
}.

(** [osin.AuthorizeRequest]. [Expiration] is an [int32]. *)
Record AuthorizeRequest : Type := mkAuthorizeRequest {
  ar_Client : Client;
  Scope : string;
  RedirectUri : string;
  Authorized : bool;
  Expiration : Z;
  UserData : Any;
  HttpRequest : Request
}.

(** The assignment [ar.Authorized = b]. *)
Definition set_Authorized (ar : AuthorizeRequest) (b : bool) : AuthorizeRequest :=
  {| ar_Client := ar_Client ar; Scope := Scope ar; RedirectUri := RedirectUri ar;
     Authorized := b; Expiration := Expiration ar; UserData := UserData ar;
     HttpRequest := HttpRequest ar |}.

(** [http.StatusFound]. *)
Definition StatusFound : Z := 302.

(* ================================================================= *)
(** ** Query strings of [net/url] *)

Definition byte_in (lo hi : N) (c : ascii) : bool :=
  (lo <=? N_of_ascii c)%N && (N_of_ascii c <=? hi)%N.

Definition byte_is (n : N) (c : ascii) : bool := (N_of_ascii c =? n)%N.

(** [shouldEscape(c, encodeQueryComponent)]: letters, digits and the marks
    [-], [_], [.] and [~] stay, every other byte is escaped. *)
Definition shouldEscape (c : ascii) : bool :=
  if byte_in 65 90 c || byte_in 97 122 c || byte_in 48 57 c then false
  else if byte_is 45 c || byte_is 95 c || byte_is 46 c || byte_is 126 c then false
  else true.

(** A digit of ["0123456789ABCDEF"]. *)
Definition upperhex (n : N) : ascii :=
  if (n <? 10)%N then ascii_of_N (48 + n) else ascii_of_N (55 + n).

(** [url.QueryEscape]: a space becomes [+], an escaped byte [%XX]. *)
Fixpoint QueryEscape (s : string) : string :=
  match s with
  | EmptyString => EmptyString
  | String c rest =>
      if byte_is 32 c then String "+" (QueryEscape rest)
      else if shouldEscape c then
        String "%" (String (upperhex (N_of_ascii c / 16))
                      (String (upperhex (N_of_ascii c mod 16)) (QueryEscape rest)))
      else String c (QueryEscape rest)
  end.

(** [url.Values], a map from a key to its values, as the entries of the
    map literal. *)
Definition Values : Type := list (string * list string).

(** [sort.Strings] on the entries' keys. *)
Fixpoint insertByKey (e : string * list string) (l : Values) : Values :=
  match l with
  | [] => [e]
  | e' :: l' =>
      if String.leb (fst e) (fst e') then e :: e' :: l' else e' :: insertByKey e l'
  end.

Definition sortByKey (v : Values) : Values := fold_right insertByKey [] v.

(** One [key=value] pair per value, written to the buffer after a [&]
    when the buffer is not empty. *)
Fixpoint encodeValues (prefix : string) (vs : list string) (buf : string) : string :=
  match vs with
  | [] => buf
  | v :: vs' =>
      let buf := if (String.length buf =? 0)%nat then buf else buf ++ "&" in
      encodeValues prefix vs' (buf ++ prefix ++ QueryEscape v)
  end.

Fixpoint encodeEntries (es : Values) (buf : string) : string :=
  match es with
  | [] => buf
  | (k, vs) :: es' => encodeEntries es' (encodeValues (QueryEscape k ++ "=") vs buf)
  end.

(** [url.Values.Encode]: the pairs in the order of the sorted keys. *)
Definition Values_Encode (v : Values) : string := encodeEntries (sortByKey v) "".

(** The bytes an escaped query component is made of: letters, digits, the
    marks [-], [_], [.] and [~], the [+] of a space and the [%] of an escape
    with its hexadecimal digits. *)
Definition queryChar (c : ascii) : bool :=
  byte_in 65 90 c || byte_in 97 122 c || byte_in 48 57 c
  || byte_is 45 c || byte_is 95 c || byte_is 46 c || byte_is 126 c
  || byte_is 43 c || byte_is 37 c.

(** The bytes that structure a URL's query: [&] and [=] between and inside
    the pairs, [#] and [?] around the query, and the space. *)
Definition queryDelimiter (c : ascii) : bool :=
  byte_is 38 c || byte_is 61 c || byte_is 35 c || byte_is 63 c || byte_is 32 c.

Fixpoint stringAll (p : ascii -> bool) (s : string) : bool :=
  match s with
  | EmptyString => true
  | String c s' => p c && stringAll p s'
  end.

(** The value of a hexadecimal digit. *)
Definition unhex (c : ascii) : N :=
  if byte_in 48 57 c then N_of_ascii c - 48
  else if byte_in 65 70 c then N_of_ascii c - 55
  else N_of_ascii c - 87.

(** The byte that the head of an escaped string stands for, and what
    follows it: the inverse of one step of [QueryEscape]. *)
Definition unescapeHead (s : string) : option (ascii * string) :=
  match s with
  | EmptyString => None
  | String c s' =>
      if byte_is 43 c then Some (ascii_of_N 32, s')
      else if byte_is 37 c then
        match s' with
        | String h (String l s'') => Some (ascii_of_N (unhex h * 16 + unhex l), s'')
        | _ => None
        end
      else Some (c, s')
  end.

(* ================================================================= *)
(** ** Quoting of [strconv], as [%q] prints a string *)

Definition dquote : ascii := ascii_of_N 34.
Definition backslash : ascii := ascii_of_N 92.

(** [strconv.IsPrint] on a byte below [utf8.RuneSelf]. *)
Definition isPrintASCII (c : ascii) : bool := byte_in 32 126 c.

(** The loop of [strconv.Quote] over the bytes of [s]: the quote and the
    backslash get a backslash, a printable ASCII byte is copied, and from any
    other byte on the output is [rest s], the part of the loop that depends
    on the Unicode tables of the Go release. *)
Fixpoint quoteLoop (rest : string -> string) (s : string) : string :=
  match s with
  | EmptyString => EmptyString
  | String c s' =>
      if byte_is 34 c || byte_is 92 c then
        String backslash (String c (quoteLoop rest s'))
      else if isPrintASCII c then String c (quoteLoop rest s')
      else rest s
  end.

Definition strconv_Quote (rest : string -> string) (s : string) : string :=
  String dquote (quoteLoop rest s ++ String dquote EmptyString).

(** [strings.Contains s substr]. *)
Fixpoint strings_Contains (s substr : string) : bool :=
  if String.prefix substr s then true
  else match s with
       | EmptyString => false
       | String _ s' => strings_Contains s' substr
       end.

(* ================================================================= *)
(** ** The Go runtime the file relies on

    What the standard library contributes and this file does not define:
    the response writer, the state behind the collaborators, URL parsing
    and printing, [http.Redirect], and the part of [%q] that depends on the
    Unicode tables. *)

Class GoRuntime : Type := {
  (** the contents of an [http.ResponseWriter] *)
  ResponseWriter : Type;
  (** whatever the collaborators read and update besides the response *)
  Store : Type;
  (** [url.Parse] *)
  url_Parse : string -> error + URL;
  (** the [String] method of a URL *)
  URL_String : URL -> string;
  (** [http.Redirect w req urlStr code], as the writer it leaves *)
  http_Redirect : ResponseWriter -> Request -> string -> Z -> ResponseWriter;
  (** [strconv]'s quoting loop from a byte on that is a control character,
      DEL or part of a non-ASCII rune *)
  quoteFrom : string -> string
}.

Section Handlers.

Context {rt : GoRuntime}.

(* ================================================================= *)
(** ** The interfaces of the package *)

(** Modelled from the spec: the interface [GrantChecker], declared outside
    this file; a lookup that may consult and update the store. *)
Record GrantChecker : Type := mkGrantChecker {
  HasAuthorizedClient :
    user_Info -> Grant -> Store -> (bool * option error) * Store
}.

(** Modelled from the spec: the interface [GrantHandler], declared outside
    this file; the result is [(authorized, handled, err)]. *)
Record GrantHandler : Type := mkGrantHandler {
  GrantNeeded :
    user_Info -> Grant -> ResponseWriter -> Request -> Store ->
    (bool * bool * option error) * (ResponseWriter * Store)
}.

(** Modelled from the spec: the interface [GrantErrorHandler], declared
    outside this file; the result is [(handled, err)]. *)
Record GrantErrorHandler : Type := mkGrantErrorHandler {
  GrantError :
    error -> ResponseWriter -> Request -> Store ->
    (bool * option error) * (ResponseWriter * Store)
}.

(* ================================================================= *)
(** ** State and trace of one decision step *)

(** What the step did, in order: assignments to [ar.Authorized] and calls
    of the three collaborators with their arguments. *)
Inductive Event : Type :=
| EvSetAuthorized (b : bool)
| EvHasAuthorizedClient (u : user_Info) (g : Grant)
| EvGrantNeeded (u : user_Info) (g : Grant)
| EvGrantError (e : error).

Record State : Type := mkState {
  st_ar : AuthorizeRequest;
  st_w : ResponseWriter;
  st_store : Store;
  st_trace : list Event
}.

Definition M (A : Type) : Type := State -> A * State.

Definition ret {A : Type} (a : A) : M A := fun st => (a, st).

Definition bind {A B : Type} (m : M A) (k : A -> M B) : M B :=
  fun st => let (a, st') := m st in k a st'.

Notation "x <- m ;; k" := (bind m (fun x => k))
  (at level 100, m at next level, right associativity).
Notation "m ;;; k" := (bind m (fun _ => k))
  (at level 100, right associativity).

(** Reading [*ar]. *)
Definition readRequest : M AuthorizeRequest := fun st => (st_ar st, st).

(** [ar.Authorized = b]. *)
Definition assignAuthorized (b : bool) : M unit :=
  fun st =>
    (tt, {| st_ar := set_Authorized (st_ar st) b; st_w := st_w st;
            st_store := st_store st;
            st_trace := (st_trace st ++ [EvSetAuthorized b])%list |}).

(** [c.HasAuthorizedClient(user, grant)]. *)
Definition callHasAuthorizedClient (c : GrantChecker) (u : user_Info) (g : Grant)
  : M (bool * option error) :=
  fun st =>
    let (r, s') := HasAuthorizedClient c u g (st_store st) in
    (r, {| st_ar := st_ar st; st_w := st_w st; st_store := s';
           st_trace := (st_trace st ++ [EvHasAuthorizedClient u g])%list |}).

(** [gh.GrantNeeded(user, grant, w, req)]. *)
Definition callGrantNeeded (gh : GrantHandler) (u : user_Info) (g : Grant)
  (req : Request) : M (bool * bool * option error) :=
  fun st =>
    let '(r, (w', s')) := GrantNeeded gh u g (st_w st) req (st_store st) in
    (r, {| st_ar := st_ar st; st_w := w'; st_store := s';
           st_trace := (st_trace st ++ [EvGrantNeeded u g])%list |}).

(** [eh.GrantError(err, w, req)]. *)
Definition callGrantError (eh : GrantErrorHandler) (e : error) (req : Request)
  : M (bool * option error) :=
  fun st =>
    let '(r, (w', s')) := GrantError eh e (st_w st) req (st_store st) in
    (r, {| st_ar := st_ar st; st_w := w'; st_store := s';
           st_trace := (st_trace st ++ [EvGrantError e])%list |}).

(* ================================================================= *)
(** ** GrantCheck *)

Record GrantCheck : Type := mkGrantCheck {
  check : GrantChecker;
  handler : GrantHandler;
  errorHandler : GrantErrorHandler
}.

Definition NewGrantCheck (check : GrantChecker) (handler : GrantHandler)
  (errorHandler : GrantErrorHandler) : GrantCheck :=
  mkGrantCheck check handler errorHandler.

(** The grant built from the request; [int64(ar.Expiration)] keeps the
    value. *)
Definition grantOf (ar : AuthorizeRequest) : Grant :=
  {| grant_Client := ar_Client ar;
     grant_Scope := Scope ar;
     grant_Expiration := Expiration ar;
     grant_RedirectURI := RedirectUri ar |}.

Definition HandleAuthorize (h : GrantCheck) : M (bool * option error) :=
  ar <- readRequest ;;
  if negb (Authorized ar) then ret (false, None)
  else
    assignAuthorized false ;;;
    match assert_user_Info (UserData ar) with
    | (Some user, true) =>
        let grant := grantOf ar in
        r <- callHasAuthorizedClient (check h) user grant ;;
        match r with
        | (_, Some err) => callGrantError (errorHandler h) err (HttpRequest ar)
        | (true, None) => assignAuthorized true ;;; ret (false, None)
        | (false, None) =>
            r' <- callGrantNeeded (handler h) user grant (HttpRequest ar) ;;
            let '(authorized, handled, err) := r' in
            (if authorized then assignAuthorized true else ret tt) ;;;
            ret (handled, err)
        end
    | _ =>
        callGrantError (errorHandler h)
          (errors_New "the provided user data is not user.Info")
          (HttpRequest ar)
    end.

(* ================================================================= *)
(** ** The handlers that need no configuration *)

Record emptyGrant : Type := mkEmptyGrant {}.

Definition emptyGrant_GrantNeeded (_ : emptyGrant) (user : user_Info)
  (grant : Grant) (w : ResponseWriter) (req : Request) (s : Store)
  : (bool * bool * option error) * (ResponseWriter * Store) :=
  ((false, false, None), (w, s)).

Definition NewEmptyGrant : GrantHandler :=
  {| GrantNeeded := emptyGrant_GrantNeeded mkEmptyGrant |}.

Record autoGrant : Type := mkAutoGrant {}.

Definition autoGrant_GrantNeeded (_ : autoGrant) (user : user_Info)
  (grant : Grant) (w : ResponseWriter) (req : Request) (s : Store)
  : (bool * bool * option error) * (ResponseWriter * Store) :=
  ((true, false, None), (w, s)).

Definition NewAutoGrant : GrantHandler :=
  {| GrantNeeded := autoGrant_GrantNeeded mkAutoGrant |}.

(* ================================================================= *)
(** ** redirectGrant *)

Record redirectGrant : Type := mkRedirectGrant { url : string }.

(** The map literal of the four query parameters. *)
Definition redirectValues (grant : Grant) (req : Request) : Values :=
  [ ("then", [URL_String (req_URL req)]);
    ("client_id", [GetId (grant_Client grant)]);
    ("scopes", [grant_Scope grant]);
    ("redirect_uri", [grant_RedirectURI grant]) ].

Definition redirectGrant_GrantNeeded (g : redirectGrant) (user : user_Info)
  (grant : Grant) (w : ResponseWriter) (req : Request) (s : Store)
  : (bool * bool * option error) * (ResponseWriter * Store) :=
  match url_Parse (url g) with
  | inl err => ((false, false, Some err), (w, s))
  | inr redirectURL =>
      let redirectURL :=
        set_RawQuery redirectURL (Values_Encode (redirectValues grant req)) in
      ((false, true, None),
       (http_Redirect w req (URL_String redirectURL) StatusFound, s))
  end.

Definition NewRedirectGrant (url : string) : GrantHandler :=
  {| GrantNeeded := redirectGrant_GrantNeeded (mkRedirectGrant url) |}.

(* ================================================================= *)
(** ** perClientGrant *)

Record perClientGrant : Type := mkPerClientGrant {
  auto : GrantHandler;
  prompt : GrantHandler;
  deny : GrantHandler;
  defaultMethod : GrantHandlerType
}.

(** [fmt.Errorf] on the format of the unrecognized-method error, whose one
    verb is [%q]. *)
Definition unrecognizedMethod (method : GrantHandlerType) : error :=
  errors_New ("OAuth client grant method " ++ strconv_Quote quoteFrom method
              ++ " unrecognized").

Definition perClientGrant_GrantNeeded (g : perClientGrant) (user : user_Info)
  (grant : Grant) (w : ResponseWriter) (req : Request) (s : Store)
  : (bool * bool * option error) * (ResponseWriter * Store) :=
  match assert_OAuthClient (GetUserData (grant_Client grant)) with
  | (Some client, true) =>
      let method := GrantMethod client in
      let method :=
        if (String.length method =? 0)%nat
        then defaultMethod g (* Use the global default *)
        else method in
      if String.eqb method GrantHandlerAuto then
        GrantNeeded (auto g) user grant w req s
      else if String.eqb method GrantHandlerPrompt then
        GrantNeeded (prompt g) user grant w req s
      else if String.eqb method GrantHandlerDeny then
        GrantNeeded (deny g) user grant w req s
      else ((false, false, Some (unrecognizedMethod method)), (w, s))
  | _ =>
      ((false, false, Some (errors_New "unrecognized OAuth client type")), (w, s))
  end.

Definition NewPerClientGrant (prompt : GrantHandler)
  (defaultMethod : GrantHandlerType) : GrantHandler :=
  {| GrantNeeded :=
       perClientGrant_GrantNeeded
         {| auto := NewAutoGrant;
            prompt := prompt;
            deny := NewEmptyGrant;
            defaultMethod := defaultMethod |} |}.

End Handlers.

(* ================================================================= *)
(** ** A sample runtime and sample collaborators

    A runtime small enough to evaluate the handlers on concrete requests:
    the response writer keeps the redirects it was asked for, the store is
    a counter, a URL is its path and query. *)

Module Sample.

#[export] Instance runtime : GoRuntime := {|
  ResponseWriter := list (string * Z);
  Store := nat;
  url_Parse := fun s =>
    if String.prefix ":" s then inl (errors_New "missing protocol scheme")
    else inr (mkURL "" "" None "" s "" "");
  URL_String := fun u =>
    if (String.length (RawQuery u) =? 0)%nat then Path u
    else Path u ++ "?" ++ RawQuery u;
  http_Redirect := fun w _ urlStr code => (w ++ [(urlStr, code)])%list;
  quoteFrom := fun _ => EmptyString
|}.

Definition alice : user_Info := mkUserInfo "alice" "42" ["dev"].

Definition clientWith (method : GrantHandlerType) : Client :=
  mkClient "abc" "secret" "https://app.example/cb"
           (any_OAuthClient (mkOAuthClient "abc" method)).

Definition httpReq : Request :=
  mkRequest "GET" (mkURL "" "" None "" "https://as.example/authorize" "x=1" "").

Definition request (method : GrantHandlerType) (authorized : bool) (ud : Any)
  : AuthorizeRequest :=
  {| ar_Client := clientWith method; Scope := "read write";
     RedirectUri := "https://app.example/cb"; Authorized := authorized;
     Expiration := 3600; UserData := ud; HttpRequest := httpReq |}.

(** A response nothing was written to, and a fresh store. *)
Definition blank : ResponseWriter := [].
Definition fresh : Store := 0%nat.

Definition start (ar : AuthorizeRequest) : State := mkState ar blank fresh [].

(** A checker that answers [(found, err)] and leaves the store alone. *)
Definition constantChecker (found : bool) (err : option error) : GrantChecker :=
  {| HasAuthorizedClient := fun _ _ s => ((found, err), s) |}.

(** An error handler that writes nothing and reports the error back. *)
Definition passErrors : GrantErrorHandler :=
  {| GrantError := fun e w _ s => ((false, Some e), (w, s)) |}.

(** An error handler that renders an error page: it reports the response as
    written and no error. *)
Definition renderErrors : GrantErrorHandler :=
  {| GrantError := fun e w _ s => ((true, None), ((w ++ [(Error e, 500%Z)])%list, s)) |}.

(** An error handler that counts its calls in the store and renders a page
    only for the first error it sees. *)
Definition renderFirstError : GrantErrorHandler :=
  {| GrantError := fun e w _ s =>
       match s with
       | O => ((true, None), ((w ++ [(Error e, 500%Z)])%list, S s))
       | S _ => ((false, Some e), (w, S s))
       end |}.

Definition storeTimeout : error := errors_New "store timeout".

Definition consent : string := "https://example.com/consent".

(** A request of [alice] for a client with the given method. *)
Definition authorizedRequest (method : GrantHandlerType) : State :=
  start (request method true (any_user_Info alice)).

(** The grant of the sample requests. *)
Definition sampleGrant (method : GrantHandlerType) : Grant :=
  grantOf (request method true (any_user_Info alice)).

(** The per-client handler as a server would set it up: prompt by
    redirect, prompt by default. *)
Definition perClient : GrantHandler :=
  NewPerClientGrant (NewRedirectGrant consent) GrantHandlerPrompt.

(** No prior grant on record, errors rendered as a page. *)
Definition firstVisit : GrantCheck :=
  NewGrantCheck (constantChecker false None) perClient renderErrors.

(** A prior grant on record. *)
Definition returningVisit : GrantCheck :=
  NewGrantCheck (constantChecker true None) perClient renderErrors.

(** The store fails. *)
Definition storeDown : GrantCheck :=
  NewGrantCheck (constantChecker false (Some storeTimeout)) perClient renderErrors.

(** Stateless checker and handler in front of an error handler that keeps
    a count. *)
Definition countingErrors : GrantCheck :=
  NewGrantCheck (constantChecker false None) NewEmptyGrant renderFirstError.

(** A method with a quote in it. *)
Definition quotedMethod : GrantHandlerType :=
  String "a" (String dquote (String "b" EmptyString)).

(** The text of the error for a method that [%q] prints between quotes as
    it is. *)
Definition unrecognizedText (method : string) : string :=
  "OAuth client grant method "
  ++ String dquote (method ++ String dquote " unrecognized").

(** A client whose user data is the record of another registry. *)
Definition legacyClient : Client :=
  mkClient "legacy" "secret" "https://old.example/cb" (any_other "registry.Client").

(** A request of [alice] for the legacy client. *)
Definition legacyRequest : State :=
  start {| ar_Client := legacyClient; Scope := "read";
           RedirectUri := "https://old.example/cb"; Authorized := true;
           Expiration := 600; UserData := any_user_Info alice;
           HttpRequest := httpReq |}.

(** The sample grant with another expiration. *)
Definition shortGrant : Grant :=
  mkGrant (clientWith GrantHandlerPrompt) "read write" 60 "https://app.example/cb".

Definition teapot : error := errors_New "teapot".

(** A prompt handler that wrote a response, reports an error, and says
    authorized all the same. *)
Definition approvingButFailing : GrantHandler :=
  {| GrantNeeded := fun _ _ w _ s =>
       ((true, true, Some teapot), ((w ++ [("teapot", 418%Z)])%list, s)) |}.

(** No prior grant on record, behind that prompt handler. *)
Definition promptFails : GrantCheck :=
  NewGrantCheck (constantChecker false None)
    (NewPerClientGrant approvingButFailing GrantHandlerPrompt) renderErrors.

End Sample.

(* ================================================================= *)
(** ** A runtime with the URLs of [net/url]

    [url.Parse] and the [String] method as they work on URLs of the shape
    [scheme://host/path?query#fragment], [/path?query] and [scheme:opaque]
    whose parts carry no user information and no percent escapes: the
    scheme is split off, then the fragment and the query, then the
    authority. The response writer keeps the [Location] and the status of
    each redirect. *)

Module NetURL.

Inductive schemeResult : Type :=
| NoScheme
| MissingScheme
| HasScheme (scheme rest : string).

Definition isLetter (c : ascii) : bool := byte_in 65 90 c || byte_in 97 122 c.

(** [getscheme]: letters, and after the first byte digits, [+], [-] and
    [.], up to a colon; a colon at the start is an error, any other byte
    means there is no scheme. *)
Fixpoint getscheme (atStart : bool) (s : string) : schemeResult :=
  match s with
  | EmptyString => NoScheme
  | String c s' =>
      if isLetter c
         || (negb atStart
             && (byte_in 48 57 c || byte_is 43 c || byte_is 45 c || byte_is 46 c))
      then
        match getscheme false s' with
        | HasScheme scheme rest => HasScheme (String c scheme) rest
        | r => r
        end
      else if byte_is 58 c then
        if atStart then MissingScheme else HasScheme EmptyString s'
      else NoScheme
  end.

Definition toLowerByte (c : ascii) : ascii :=
  if byte_in 65 90 c then ascii_of_N (N_of_ascii c + 32) else c.

(** [strings.ToLower] on ASCII. *)
Fixpoint toLower (s : string) : string :=
  match s with
  | EmptyString => EmptyString
  | String c s' => String (toLowerByte c) (toLower s')
  end.

(** [split s c cutc]: [s] before the first [c] and from it on, without
    the [c] when [cutc]; all of [s] and the empty string when there is no
    [c]. *)
Fixpoint split (s : string) (c : ascii) (cutc : bool) : string * string :=
  match s with
  | EmptyString => (EmptyString, EmptyString)
  | String x s' =>
      if Ascii.eqb x c then (EmptyString, if cutc then s' else s)
      else let (before, after) := split s' c cutc in (String x before, after)
  end.

Definition isEmpty (s : string) : bool := (String.length s =? 0)%nat.

(** [parse rawurl false]: a URL without its fragment. *)
Definition parse (rawurl : string) : error + URL :=
  if String.eqb rawurl "*" then
    inr (mkURL EmptyString EmptyString None EmptyString "*" EmptyString EmptyString)
  else
    match getscheme true rawurl with
    | MissingScheme =>
        inl (errors_New ("parse " ++ rawurl ++ ": missing protocol scheme"))
    | r =>
        let (scheme, rest) :=
          match r with
          | HasScheme scheme rest => (toLower scheme, rest)
          | _ => (EmptyString, rawurl)
          end in
        let (rest, rawQuery) := split rest "?" true in
        if negb (String.prefix "/" rest) && negb (isEmpty scheme) then
          inr (mkURL scheme rest None EmptyString EmptyString rawQuery EmptyString)
        else if (negb (isEmpty scheme) || negb (String.prefix "///" rest))
                && String.prefix "//" rest then
          let (authority, rest) :=
            split (String.substring 2 (String.length rest - 2) rest) "/" false in
          inr (mkURL scheme EmptyString None authority rest rawQuery EmptyString)
        else
          inr (mkURL scheme EmptyString None EmptyString rest rawQuery EmptyString)
    end.

(** [url.Parse]: the fragment is cut off first. *)
Definition Parse (rawurl : string) : error + URL :=
  let (u, frag) := split rawurl "#" true in
  match parse u with
  | inl err => inl err
  | inr url =>
      inr (mkURL (Scheme url) (Opaque url) (User url) (Host url) (Path url)
             (RawQuery url) frag)
  end.

(** The [String] method: scheme, then the opaque part or authority and
    path, then the query after [?] and the fragment after [#]. *)
Definition URLString (u : URL) : string :=
  (if isEmpty (Scheme u) then EmptyString else Scheme u ++ ":")
  ++ (if negb (isEmpty (Opaque u)) then Opaque u
      else
        (if negb (isEmpty (Scheme u)) || negb (isEmpty (Host u))
            || match User u with Some _ => true | None => false end
         then
           "//"
           ++ match User u with
              | Some (name, Some password) => name ++ ":" ++ password ++ "@"
              | Some (name, None) => name ++ "@"
              | None => EmptyString
              end
           ++ Host u
         else EmptyString)
        ++ (if negb (isEmpty (Path u)) && negb (String.prefix "/" (Path u))
               && negb (isEmpty (Host u))
            then "/" else EmptyString)
        ++ Path u)
  ++ (if isEmpty (RawQuery u) then EmptyString else "?" ++ RawQuery u)
  ++ (if isEmpty (Fragment u) then EmptyString else "#" ++ Fragment u).

#[export] Instance runtime : GoRuntime := {|
  ResponseWriter := list (string * Z);
  Store := nat;
  url_Parse := Parse;
  URL_String := URLString;
  http_Redirect := fun w _ urlStr code => (w ++ [(urlStr, code)])%list;
  quoteFrom := fun _ => EmptyString
|}.

Definition unwritten : ResponseWriter := [].
Definition emptyStore : Store := 0%nat.

(** The consent page, and the consent page configured with a query of its
    own. *)
Definition consent : string := "https://example.com/consent".
Definition consentWithQuery : string := "https://example.com/consent?foo=bar".

(** The authorize request as the server holds it. *)
Definition authorizeReq : Request :=
  mkRequest "GET"
    (mkURL EmptyString EmptyString None EmptyString "/oauth/authorize" "x=1"
       EmptyString).

Definition bob : user_Info := mkUserInfo "bob" "7" ["ops"].

Definition promptClient : Client :=
  mkClient "abc" "secret" "https://app.example/cb"
    (any_OAuthClient (mkOAuthClient "abc" GrantHandlerPrompt)).

Definition promptGrant : Grant :=
  mkGrant promptClient "read write" 3600 "https://app.example/cb".

(** A request of [bob] for the client set to [prompt]. *)
Definition visit : State :=
  mkState
    {| ar_Client := promptClient; Scope := "read write";
       RedirectUri := "https://app.example/cb"; Authorized := true;
       Expiration := 3600; UserData := any_user_Info bob;
       HttpRequest := authorizeReq |}
    unwritten emptyStore [].

Definition noGrantOnRecord : GrantChecker :=
  {| HasAuthorizedClient := fun _ _ s => ((false, None), s) |}.

Definition reportErrors : GrantErrorHandler :=
  {| GrantError := fun e w _ s => ((false, Some e), (w, s)) |}.

(** The location of the redirect for the sample grant and request. *)
Definition consentLocation : string :=
  "https://example.com/consent?client_id=abc&redirect_uri=https%3A%2F%2Fapp.example%2Fcb&scopes=read+write&then=%2Foauth%2Fauthorize%3Fx%3D1".

End NetURL.

(* ================================================================= *)
(** ** Vocabulary of the properties *)

Section Contracts.

Context {rt : GoRuntime}.

(** The state a step ends in. *)
Definition exitState {A : Type} (m : M A) (st : State) : State := snd (m st).

(** The value a step returns. *)
Definition returned {A : Type} (m : M A) (st : State) : A := fst (m st).

(** The events a step appended to a trace that was [before]. *)
Definition appended (before after : list Event) : list Event :=
  skipn (List.length before) after.

(** The grants the collaborators were handed. *)
Fixpoint grantsSeen (evs : list Event) : list Grant :=
  match evs with
  | [] => []
  | EvHasAuthorizedClient _ g :: evs' => g :: grantsSeen evs'
  | EvGrantNeeded _ g :: evs' => g :: grantsSeen evs'
  | _ :: evs' => grantsSeen evs'
  end.

Definition isGrantNeeded (e : Event) : bool :=
  match e with EvGrantNeeded _ _ => true | _ => false end.

Definition isGrantError (e : Event) : bool :=
  match e with EvGrantError _ => true | _ => false end.

(** A checker whose answer does not depend on the store and which leaves
    the store as it found it. *)
Definition statelessChecker (c : GrantChecker) : Prop :=
  forall u g s s',
    HasAuthorizedClient c u g s = (fst (HasAuthorizedClient c u g s'), s).

(** A handler whose result depends on the user, the grant and the request
    only, and which leaves the store as it found it; it may write the
    response. *)
Definition statelessHandler (gh : GrantHandler) : Prop :=
  forall u g req w s w' s',
    fst (GrantNeeded gh u g w req s) = fst (GrantNeeded gh u g w' req s') /\
    snd (snd (GrantNeeded gh u g w req s)) = s.

(** The same for an error handler. *)
Definition statelessErrorHandler (eh : GrantErrorHandler) : Prop :=
  forall e req w s w' s',
    fst (GrantError eh e w req s) = fst (GrantError eh e w' req s') /\
    snd (snd (GrantError eh e w req s)) = s.

(** The state a second call starts in when it is given the request as it
    was on entry to the first call: the response, the store and the trace
    are as the first call left them. *)
Definition again (entry left : State) : State :=
  {| st_ar := st_ar entry; st_w := st_w left; st_store := st_store left;
     st_trace := st_trace left |}.

(** A method value that [%q] prints as it is: printable ASCII without the
    quote and the backslash. *)
Fixpoint plainMethod (s : string) : bool :=
  match s with
  | EmptyString => true
  | String c s' =>
      negb (byte_is 34 c || byte_is 92 c) && isPrintASCII c && plainMethod s'
  end.

(** The three policy names. *)
Definition recognizedMethod (m : GrantHandlerType) : bool :=
  String.eqb m GrantHandlerAuto || String.eqb m GrantHandlerPrompt
  || String.eqb m GrantHandlerDeny.

End Contracts.

(* ================================================================= *)
(** ** Properties of [HandleAuthorize] *)

Section DecisionStep.

Context {rt : GoRuntime}.

Ltac step_unfold :=
  unfold HandleAuthorize, bind, ret, readRequest, assignAuthorized,
    callHasAuthorizedClient, callGrantNeeded, callGrantError; cbn.

Lemma appended_app (before evs : list Event) :
  appended before (before ++ evs) = evs.
Proof.
  unfold appended. induction before as [|e before IH]; cbn; trivial.
Qed.

Lemma appended_nil (before : list Event) : appended before before = [].
Proof. unfold appended. apply skipn_all. Qed.

(** C7. A request that is not authorized on entry makes the step a no-op:
    it returns [(false, nil)] and ends in the state it started in, so the
    request keeps [Authorized = false], the response and the store are
    untouched, and the trace gained no call of the checker, the handler or
    the error handler. *)
Theorem HandleAuthorize_unauthorized_noop :
  forall (h : GrantCheck) (st : State),
    Authorized (st_ar st) = false ->
    HandleAuthorize h st = ((false, None), st) /\
    Authorized (st_ar (exitState (HandleAuthorize h) st)) = false /\
    appended (st_trace st) (st_trace (exitState (HandleAuthorize h) st)) = [].
Proof.
  intros h st Hentry.
  assert (Hrun : HandleAuthorize h st = ((false, None), st)).
  { step_unfold. rewrite Hentry. reflexivity. }
  unfold exitState. rewrite Hrun. cbn.
  repeat split; trivial.
  apply appended_nil.
Qed.

(** C2. When the request is authorized on entry and the checker answers
    [(true, nil)] for the user and the grant built from the request, the
    step returns [(false, nil)] and leaves [Authorized = true]; this holds
    for every handler, which is not called: the trace gains the reset of
    the flag, the call of the checker and the assignment of [true]. *)
Theorem HandleAuthorize_prior_grant :
  forall (h : GrantCheck) (st : State) (user : user_Info) (s' : Store),
    Authorized (st_ar st) = true ->
    assert_user_Info (UserData (st_ar st)) = (Some user, true) ->
    HasAuthorizedClient (check h) user (grantOf (st_ar st)) (st_store st)
      = ((true, None), s') ->
    HandleAuthorize h st
      = ((false, None),
         {| st_ar := set_Authorized (st_ar st) true;
            st_w := st_w st;
            st_store := s';
            st_trace := (st_trace st ++
                          [EvSetAuthorized false;
                           EvHasAuthorizedClient user (grantOf (st_ar st));
                           EvSetAuthorized true])%list |}) /\
    Authorized (st_ar (exitState (HandleAuthorize h) st)) = true /\
    existsb isGrantNeeded
      (appended (st_trace st) (st_trace (exitState (HandleAuthorize h) st)))
      = false.
Proof.
  intros h st user s' Hentry Huser Hcheck.
  match goal with |- ?eqn /\ _ => assert (Hrun : eqn) end.
  { step_unfold. rewrite Hentry. cbn. rewrite Huser. cbn.
    rewrite Hcheck. cbn. rewrite <- !app_assoc. reflexivity. }
  unfold exitState. rewrite Hrun. cbn.
  rewrite appended_app. repeat split; trivial.
Qed.

(** C8. When the checker returns an error, the step returns the pair that
    [GrantError] returns for that error, on the response and the store as
    the checker left them; this holds for every handler, which is not
    called. *)
Theorem HandleAuthorize_checker_error :
  forall (h : GrantCheck) (st : State) (user : user_Info) (found : bool)
         (err : error) (s' : Store),
    Authorized (st_ar st) = true ->
    assert_user_Info (UserData (st_ar st)) = (Some user, true) ->
    HasAuthorizedClient (check h) user (grantOf (st_ar st)) (st_store st)
      = ((found, Some err), s') ->
    returned (HandleAuthorize h) st
      = fst (GrantError (errorHandler h) err (st_w st)
               (HttpRequest (st_ar st)) s') /\
    appended (st_trace st) (st_trace (exitState (HandleAuthorize h) st))
      = [EvSetAuthorized false;
         EvHasAuthorizedClient user (grantOf (st_ar st));
         EvGrantError err] /\
    existsb isGrantNeeded
      (appended (st_trace st) (st_trace (exitState (HandleAuthorize h) st)))
      = false.
Proof.
  intros h st user found err s' Hentry Huser Hcheck.
  unfold returned, exitState. step_unfold.
  rewrite Hentry. cbn. rewrite Huser. cbn. rewrite Hcheck. cbn.
  destruct (GrantError (errorHandler h) err (st_w st)
              (HttpRequest (st_ar st)) s') as [r [w' s'']] eqn:Herr.
  destruct found; cbn; rewrite Herr; cbn;
    rewrite <- !app_assoc, appended_app; repeat split; trivial.
Qed.

(** C6. When the request is authorized on entry and the checker answers
    [(false, nil)]: behind the auto handler the step returns
    [(handled, err) = (false, nil)] and leaves [Authorized = true]; behind
    the empty handler it returns [(false, nil)] and leaves
    [Authorized = false]; in both cases the response writer is as it was,
    and neither handler writes to it on any call. *)
Theorem HandleAuthorize_auto_and_empty :
  forall (c : GrantChecker) (eh : GrantErrorHandler) (st : State)
         (user : user_Info) (s' : Store),
    Authorized (st_ar st) = true ->
    assert_user_Info (UserData (st_ar st)) = (Some user, true) ->
    HasAuthorizedClient c user (grantOf (st_ar st)) (st_store st)
      = ((false, None), s') ->
    HandleAuthorize (NewGrantCheck c NewAutoGrant eh) st
      = ((false, None),
         {| st_ar := set_Authorized (st_ar st) true;
            st_w := st_w st;
            st_store := s';
            st_trace := (st_trace st ++
                          [EvSetAuthorized false;
                           EvHasAuthorizedClient user (grantOf (st_ar st));
                           EvGrantNeeded user (grantOf (st_ar st));
                           EvSetAuthorized true])%list |}) /\
    HandleAuthorize (NewGrantCheck c NewEmptyGrant eh) st
      = ((false, None),
         {| st_ar := set_Authorized (st_ar st) false;
            st_w := st_w st;
            st_store := s';
            st_trace := (st_trace st ++
                          [EvSetAuthorized false;
                           EvHasAuthorizedClient user (grantOf (st_ar st));
                           EvGrantNeeded user (grantOf (st_ar st))])%list |}) /\
    (forall u g w req s,
        GrantNeeded NewAutoGrant u g w req s = ((true, false, None), (w, s)) /\
        GrantNeeded NewEmptyGrant u g w req s = ((false, false, None), (w, s))).
Proof.
  intros c eh st user s' Hentry Huser Hcheck.
  split; [|split].
  - step_unfold. rewrite Hentry. cbn. rewrite Huser. cbn.
    rewrite Hcheck. cbn. rewrite <- !app_assoc. reflexivity.
  - step_unfold. rewrite Hentry. cbn. rewrite Huser. cbn.
    rewrite Hcheck. cbn. rewrite <- !app_assoc. reflexivity.
  - intros u g w req s. split; reflexivity.
Qed.

(** X12. When the request is authorized on entry, the first thing the step
    does is to set [Authorized] to false, and on exit [Authorized] is true
    exactly when the user data is a user and either the checker answered
    [(true, nil)], or it answered [(false, nil)] and the handler returned
    [authorized = true], with or without an error; it is false whenever
    the error handler was called. *)
Theorem HandleAuthorize_fail_closed :
  forall (h : GrantCheck) (st : State),
    Authorized (st_ar st) = true ->
    (exists evs,
        appended (st_trace st) (st_trace (exitState (HandleAuthorize h) st))
        = EvSetAuthorized false :: evs) /\
    (Authorized (st_ar (exitState (HandleAuthorize h) st)) = true <->
     exists user,
       assert_user_Info (UserData (st_ar st)) = (Some user, true) /\
       (fst (HasAuthorizedClient (check h) user (grantOf (st_ar st))
               (st_store st)) = (true, None)
        \/
        (fst (HasAuthorizedClient (check h) user (grantOf (st_ar st))
                (st_store st)) = (false, None) /\
         fst (fst (fst (GrantNeeded (handler h) user (grantOf (st_ar st))
                          (st_w st) (HttpRequest (st_ar st))
                          (snd (HasAuthorizedClient (check h) user
                                  (grantOf (st_ar st)) (st_store st))))))
         = true))) /\
    (existsb isGrantError
       (appended (st_trace st) (st_trace (exitState (HandleAuthorize h) st)))
     = true ->
     Authorized (st_ar (exitState (HandleAuthorize h) st)) = false).
Proof.
  intros h st Hentry.
  unfold exitState. step_unfold. rewrite Hentry. cbn.
  destruct (UserData (st_ar st)) as [|u|c|t] eqn:Hud; cbn.
  2: {
    destruct (HasAuthorizedClient (check h) u (grantOf (st_ar st)) (st_store st))
      as [[found [err|]] s1] eqn:Hc; cbn.
    - destruct found; cbn;
        destruct (GrantError (errorHandler h) err (st_w st)
                    (HttpRequest (st_ar st)) s1) as [r [w' s'']]; cbn;
        rewrite <- !app_assoc, appended_app;
        (split; [eexists; reflexivity|]);
        (split; [|reflexivity]);
        (split; [discriminate|]);
        intros [user [Hu H]]; injection Hu as <-;
        rewrite Hc in H; cbn in H; destruct H as [H|[H _]]; discriminate.
    - destruct found; cbn.
      + rewrite <- !app_assoc, appended_app. split; [eexists; reflexivity|].
        split; [|discriminate].
        split; [|reflexivity].
        intros _. exists u. split; [reflexivity|left; rewrite Hc; reflexivity].
      + destruct (GrantNeeded (handler h) u (grantOf (st_ar st)) (st_w st)
                    (HttpRequest (st_ar st)) s1)
          as [[[authorized handled] err] [w' s'']] eqn:Hg; cbn.
        destruct authorized; cbn;
          rewrite <- !app_assoc, appended_app;
          (split; [eexists; reflexivity|]).
        * split; [|discriminate].
          split; [|reflexivity].
          intros _. exists u. split; [reflexivity|right].
          rewrite Hc. cbn. split; [reflexivity|]. rewrite Hg. reflexivity.
        * split; [|reflexivity].
          split; [discriminate|].
          intros [user [Hu H]]; injection Hu as <-.
          rewrite Hc in H; cbn in H. destruct H as [H|[_ H]]; [discriminate|].
          rewrite Hg in H. discriminate.
  }
  all: destruct (GrantError (errorHandler h) _ (st_w st)
                   (HttpRequest (st_ar st)) (st_store st)) as [r [w' s'']]; cbn;
    rewrite <- !app_assoc, appended_app; (split; [eexists; reflexivity|]);
    (split; [|reflexivity]);
    (split; [discriminate|]); intros [user [Hu _]]; discriminate.
Qed.

(** C3, as the code has it. An error of the step's own checks is handed
    to [GrantError], whose pair the step returns: the user data that is not
    a user, and the error of the checker. An error that the handler returns
    (the client record that is not an OAuth client, the redirect URL that
    does not parse, the method that is not recognized) is returned to the
    caller as it is, next to the handler's [handled], and [GrantError] is
    not called. *)
Theorem HandleAuthorize_error_routes :
  forall (h : GrantCheck) (st : State),
    Authorized (st_ar st) = true ->
    ((forall user, assert_user_Info (UserData (st_ar st)) <> (Some user, true)) ->
     returned (HandleAuthorize h) st
       = fst (GrantError (errorHandler h)
                (errors_New "the provided user data is not user.Info")
                (st_w st) (HttpRequest (st_ar st)) (st_store st)) /\
     appended (st_trace st) (st_trace (exitState (HandleAuthorize h) st))
       = [EvSetAuthorized false;
          EvGrantError (errors_New "the provided user data is not user.Info")])
    /\
    (forall user found err s1,
        assert_user_Info (UserData (st_ar st)) = (Some user, true) ->
        HasAuthorizedClient (check h) user (grantOf (st_ar st)) (st_store st)
          = ((found, Some err), s1) ->
        returned (HandleAuthorize h) st
          = fst (GrantError (errorHandler h) err (st_w st)
                   (HttpRequest (st_ar st)) s1) /\
        appended (st_trace st) (st_trace (exitState (HandleAuthorize h) st))
          = [EvSetAuthorized false;
             EvHasAuthorizedClient user (grantOf (st_ar st));
             EvGrantError err])
    /\
    (forall user s1 authorized handled err out,
        assert_user_Info (UserData (st_ar st)) = (Some user, true) ->
        HasAuthorizedClient (check h) user (grantOf (st_ar st)) (st_store st)
          = ((false, None), s1) ->
        GrantNeeded (handler h) user (grantOf (st_ar st)) (st_w st)
          (HttpRequest (st_ar st)) s1
          = ((authorized, handled, Some err), out) ->
        returned (HandleAuthorize h) st = (handled, Some err) /\
        existsb isGrantError
          (appended (st_trace st) (st_trace (exitState (HandleAuthorize h) st)))
          = false).
Proof.
  intros h st Hentry. split; [|split].
  - intros Hnot. unfold returned, exitState. step_unfold.
    rewrite Hentry. cbn.
    destruct (UserData (st_ar st)) as [|u|c|t]; cbn.
    2: { exfalso. apply (Hnot u). reflexivity. }
    all: destruct (GrantError (errorHandler h) _ (st_w st)
                     (HttpRequest (st_ar st)) (st_store st)) as [r [w' s'']];
      cbn; rewrite <- !app_assoc, appended_app; split; reflexivity.
  - intros user found err s1 Huser Hcheck.
    unfold returned, exitState. step_unfold.
    rewrite Hentry. cbn. rewrite Huser. cbn. rewrite Hcheck. cbn.
    destruct found; cbn;
      destruct (GrantError (errorHandler h) err (st_w st)
                  (HttpRequest (st_ar st)) s1) as [r [w' s'']];
      cbn; rewrite <- !app_assoc, appended_app; split; reflexivity.
  - intros user s1 authorized handled err [w' s''] Huser Hcheck Hneeded.
    unfold returned, exitState. step_unfold.
    rewrite Hentry. cbn. rewrite Huser. cbn. rewrite Hcheck. cbn.
    rewrite Hneeded. cbn.
    destruct authorized; cbn; rewrite <- !app_assoc, appended_app;
      split; reflexivity.
Qed.

Lemma stateless_check_run (c : GrantChecker) :
  statelessChecker c ->
  forall u g s, snd (HasAuthorizedClient c u g s) = s.
Proof. intros Hc u g s. rewrite (Hc u g s s). reflexivity. Qed.

(** C9, as the code has it. With a checker, a handler and an error handler
    that are all stateless, two calls in succession that both start from
    the same request state return the same pair and leave the same
    [Authorized]; the step changes no field of the request other than
    [Authorized], the client record among them, and the grant handed to
    the collaborators is the one built from the request on entry. *)
Theorem HandleAuthorize_repeatable :
  forall (h : GrantCheck) (st : State),
    statelessChecker (check h) ->
    statelessHandler (handler h) ->
    statelessErrorHandler (errorHandler h) ->
    returned (HandleAuthorize h) (again st (exitState (HandleAuthorize h) st))
      = returned (HandleAuthorize h) st /\
    Authorized (st_ar (exitState (HandleAuthorize h)
                         (again st (exitState (HandleAuthorize h) st))))
      = Authorized (st_ar (exitState (HandleAuthorize h) st)) /\
    st_ar (exitState (HandleAuthorize h) st)
      = set_Authorized (st_ar st)
          (Authorized (st_ar (exitState (HandleAuthorize h) st))) /\
    Forall (eq (grantOf (st_ar st)))
      (grantsSeen
         (appended (st_trace st) (st_trace (exitState (HandleAuthorize h) st)))).
Proof.
  intros h st Hchk Hgh Heh.
  unfold returned, exitState, again. step_unfold.
  destruct (st_ar st) as [cl sc ru [|] ex ud rq] eqn:Har; cbn.
  2: { rewrite Har. cbn. rewrite appended_nil. repeat split; constructor. }
  destruct ud as [|u|c|t]; cbn.
  2: {
    pose proof (stateless_check_run _ Hchk u
                  (grantOf (mkAuthorizeRequest cl sc ru true ex
                              (any_user_Info u) rq)) (st_store st)) as Hs.
    destruct (HasAuthorizedClient (check h) u _ (st_store st))
      as [[found [err|]] s1] eqn:Hc; cbn in Hs; subst s1; cbn.
    - destruct found; cbn;
        destruct (Heh err rq (st_w st) (st_store st) (st_w st) (st_store st))
          as [_ Hs];
        destruct (GrantError (errorHandler h) err (st_w st) rq (st_store st))
          as [r [w' s'']] eqn:He; cbn in Hs; subst s''; cbn;
        rewrite Har; cbn; rewrite Hc; cbn;
        destruct (Heh err rq w' (st_store st) (st_w st) (st_store st))
          as [Hr _]; rewrite He in Hr;
        destruct (GrantError (errorHandler h) err w' rq (st_store st))
          as [r2 [w2 s2]]; cbn in *; subst r2;
        rewrite <- !app_assoc, appended_app; cbn;
        repeat split; repeat constructor.
    - destruct found; cbn.
      + rewrite Har. cbn. rewrite Hc. cbn.
        rewrite <- !app_assoc, appended_app; cbn.
        repeat split; repeat constructor.
      + destruct (Hgh u (grantOf (mkAuthorizeRequest cl sc ru true ex
                                    (any_user_Info u) rq))
                    rq (st_w st) (st_store st) (st_w st) (st_store st))
          as [_ Hs].
        destruct (GrantNeeded (handler h) u _ (st_w st) rq (st_store st))
          as [[[authorized handled] err] [w' s'']] eqn:Hg;
          cbn in Hs; subst s''; cbn.
        destruct (Hgh u (grantOf (mkAuthorizeRequest cl sc ru true ex
                                    (any_user_Info u) rq))
                    rq w' (st_store st) (st_w st) (st_store st))
          as [Hr _]; rewrite Hg in Hr.
        destruct authorized; cbn; rewrite Har; cbn; rewrite Hc; cbn;
          destruct (GrantNeeded (handler h) u _ w' rq (st_store st))
            as [[[a2 h2] e2] [w2 s2]]; cbn in Hr; injection Hr as -> -> ->;
          cbn; rewrite <- !app_assoc, appended_app; cbn;
          repeat split; repeat constructor.
  }
  all: match goal with
       | |- context [GrantError _ ?e _ _ _] =>
           destruct (Heh e rq (st_w st) (st_store st) (st_w st) (st_store st))
             as [_ Hs];
           destruct (GrantError (errorHandler h) e (st_w st) rq (st_store st))
             as [r [w' s'']] eqn:He; cbn in Hs; subst s''; cbn;
           rewrite Har; cbn;
           destruct (Heh e rq w' (st_store st) (st_w st) (st_store st))
             as [Hr _]; rewrite He in Hr;
           destruct (GrantError (errorHandler h) e w' rq (st_store st))
             as [r2 [w2 s2]]; cbn in *; subst r2;
           rewrite <- !app_assoc, appended_app; cbn;
           repeat split; repeat constructor
       end.
Qed.

End DecisionStep.

(* ================================================================= *)
(** ** Properties of the handlers *)

Section HandlerVariants.

Context {rt : GoRuntime}.

Lemma prefix_app (m x : string) : String.prefix m (m ++ x) = true.
Proof.
  induction m as [|c m IH]; cbn.
  - destruct x; reflexivity.
  - destruct (ascii_dec c c) as [_|Hne]; [exact IH|contradiction].
Qed.

Lemma strings_Contains_cons (c : ascii) (s sub : string) :
  strings_Contains (String c s) sub
  = if String.prefix sub (String c s) then true else strings_Contains s sub.
Proof. reflexivity. Qed.

Lemma strings_Contains_prefix (s sub : string) :
  String.prefix sub s = true -> strings_Contains s sub = true.
Proof. intros H. destruct s; cbn [strings_Contains]; rewrite H; reflexivity. Qed.

Lemma strings_Contains_skip (pre s sub : string) :
  strings_Contains s sub = true -> strings_Contains (pre ++ s) sub = true.
Proof.
  intros H. induction pre as [|c pre IH]; [exact H|].
  change (String c pre ++ s) with (String c (pre ++ s)).
  rewrite strings_Contains_cons, IH.
  destruct (String.prefix sub (String c (pre ++ s))); reflexivity.
Qed.

Lemma strings_Contains_infix (pre m post : string) :
  strings_Contains (pre ++ m ++ post) m = true.
Proof.
  apply strings_Contains_skip, strings_Contains_prefix, prefix_app.
Qed.

Lemma quoteLoop_plain (rest : string -> string) (m : string) :
  plainMethod m = true -> quoteLoop rest m = m.
Proof.
  induction m as [|c m IH]; cbn; [reflexivity|].
  intros H. apply andb_prop in H as [H Hm]. apply andb_prop in H as [Hq Hp].
  apply negb_true_iff in Hq. rewrite Hq, Hp, (IH Hm). reflexivity.
Qed.

Lemma strconv_Quote_plain (rest : string -> string) (m : string) :
  plainMethod m = true ->
  strconv_Quote rest m = String dquote (m ++ String dquote EmptyString).
Proof.
  intros H. unfold strconv_Quote. rewrite (quoteLoop_plain rest m H). reflexivity.
Qed.

Lemma append_assoc (a b c : string) : (a ++ b) ++ c = a ++ b ++ c.
Proof. induction a as [|x a IH]; cbn; [reflexivity|]. rewrite IH. reflexivity. Qed.

Lemma quoted_infix (pre m post : string) :
  pre ++ String dquote (m ++ String dquote EmptyString) ++ post
  = (pre ++ String dquote EmptyString) ++ m ++ String dquote post.
Proof.
  rewrite append_assoc. cbn. rewrite append_assoc. reflexivity.
Qed.

Lemma length_zero_eqb (m : string) :
  (String.length m =? 0)%nat = String.eqb m EmptyString.
Proof. destruct m; reflexivity. Qed.

(** C4, as the code has it. When the client's user data is an OAuth client,
    the method is the client's [GrantMethod], or the default when that is
    empty. The method [auto] delegates to the auto handler, [prompt] to the
    prompt handler, [deny] to the deny handler. Any other method yields
    [(false, false, err)] without a write, and the text of [err] carries the
    method as [%q] prints it; the text contains the method itself when the
    method is made of printable ASCII characters other than the quote and
    the backslash. *)
Theorem perClientGrant_dispatch :
  forall (g : perClientGrant) (user : user_Info) (grant : Grant)
         (w : ResponseWriter) (req : Request) (s : Store)
         (client : OAuthClient) (method : GrantHandlerType),
    GetUserData (grant_Client grant) = any_OAuthClient client ->
    method = (if String.eqb (GrantMethod client) EmptyString
              then defaultMethod g else GrantMethod client) ->
    (method = GrantHandlerAuto ->
     perClientGrant_GrantNeeded g user grant w req s
       = GrantNeeded (auto g) user grant w req s) /\
    (method = GrantHandlerPrompt ->
     perClientGrant_GrantNeeded g user grant w req s
       = GrantNeeded (prompt g) user grant w req s) /\
    (method = GrantHandlerDeny ->
     perClientGrant_GrantNeeded g user grant w req s
       = GrantNeeded (deny g) user grant w req s) /\
    (recognizedMethod method = false ->
     perClientGrant_GrantNeeded g user grant w req s
       = ((false, false,
           Some (errors_New ("OAuth client grant method "
                             ++ strconv_Quote quoteFrom method
                             ++ " unrecognized"))),
          (w, s)) /\
     (plainMethod method = true ->
      strings_Contains
        ("OAuth client grant method " ++ strconv_Quote quoteFrom method
         ++ " unrecognized") method = true)).
Proof.
  intros g user grant w req s client method Hdata Hmethod.
  assert (Hrun : perClientGrant_GrantNeeded g user grant w req s
                 = if String.eqb method GrantHandlerAuto then
                     GrantNeeded (auto g) user grant w req s
                   else if String.eqb method GrantHandlerPrompt then
                     GrantNeeded (prompt g) user grant w req s
                   else if String.eqb method GrantHandlerDeny then
                     GrantNeeded (deny g) user grant w req s
                   else ((false, false, Some (unrecognizedMethod method)), (w, s))).
  { unfold perClientGrant_GrantNeeded. rewrite Hdata. cbn [assert_OAuthClient].
    cbv zeta. rewrite length_zero_eqb, <- Hmethod. reflexivity. }
  rewrite Hrun. split; [|split; [|split]].
  - intros ->. reflexivity.
  - intros ->. reflexivity.
  - intros ->. reflexivity.
  - intros Hnot. unfold recognizedMethod in Hnot.
    apply orb_false_iff in Hnot as [Hnot Hd].
    apply orb_false_iff in Hnot as [Ha Hp].
    rewrite Ha, Hp, Hd. split; [reflexivity|].
    intros Hplain. rewrite (strconv_Quote_plain quoteFrom method Hplain).
    rewrite quoted_infix. apply strings_Contains_infix.
Qed.

(** C10. When the client's [GrantMethod] is empty and the default method
    is empty too, the empty method reaches the default branch of the
    switch: the result is [(false, false, err)], the text of [err] quotes
    the empty string, and whatever the three sub-handlers are, none is
    called: the response and the store are as they were. The same holds
    for a handler built by [NewPerClientGrant] with an empty default. *)
Theorem perClientGrant_empty_default :
  forall (g : perClientGrant) (user : user_Info) (grant : Grant)
         (w : ResponseWriter) (req : Request) (s : Store)
         (client : OAuthClient),
    GetUserData (grant_Client grant) = any_OAuthClient client ->
    GrantMethod client = EmptyString ->
    defaultMethod g = EmptyString ->
    perClientGrant_GrantNeeded g user grant w req s
      = ((false, false,
          Some (errors_New ("OAuth client grant method "
                            ++ String dquote (String dquote " unrecognized")))),
         (w, s)) /\
    (forall prompt : GrantHandler,
        GrantNeeded (NewPerClientGrant prompt EmptyString) user grant w req s
        = ((false, false,
            Some (errors_New ("OAuth client grant method "
                              ++ String dquote (String dquote " unrecognized")))),
           (w, s))).
Proof.
  intros g user grant w req s client Hdata Hmethod Hdefault.
  split; [|intros prompt; cbn [GrantNeeded NewPerClientGrant]];
    unfold perClientGrant_GrantNeeded;
    rewrite Hdata; cbn [assert_OAuthClient defaultMethod]; cbv zeta;
    rewrite Hmethod; cbn [String.length Nat.eqb]; try rewrite Hdefault;
    reflexivity.
Qed.

Lemma Values_Encode_redirectValues (grant : Grant) (req : Request) :
  Values_Encode (redirectValues grant req)
  = "client_id=" ++ QueryEscape (GetId (grant_Client grant))
    ++ "&redirect_uri=" ++ QueryEscape (grant_RedirectURI grant)
    ++ "&scopes=" ++ QueryEscape (grant_Scope grant)
    ++ "&then=" ++ QueryEscape (URL_String (req_URL req)).
Proof.
  unfold Values_Encode, redirectValues. cbn.
  rewrite !append_assoc. cbn. reflexivity.
Qed.

(** The query is assigned to the parsed URL: a query that the configured
    URL carried is replaced by the four parameters, not extended. *)
Lemma set_RawQuery_replaces (u : URL) (q0 q : string) :
  set_RawQuery (set_RawQuery u q0) q = set_RawQuery u q /\
  RawQuery (set_RawQuery u q) = q.
Proof. split; reflexivity. Qed.

(** C5, as the code has it. When the configured URL parses, [GrantNeeded]
    of the redirect handler builds the query of the four parameters
    [client_id] (the client's id), [redirect_uri] (the redirect target of
    the grant), [scopes] (the scope as it is) and [then] (the URL of the
    request as a string), each escaped and in the order of the keys. The
    query takes the place of the parsed URL's query: scheme, opaque part,
    user, host, path and fragment are those of the configured URL, and a
    query that the configured URL carried is not in the result. The handler
    asks [http.Redirect] for a 302 to the string of that URL on the given
    response writer and returns [(false, true, nil)]. When the URL does not
    parse it returns [(false, false, err)] with the error of the parse and
    the response writer is as it was. *)
Theorem redirectGrant_redirects :
  forall (g : redirectGrant) (user : user_Info) (grant : Grant)
         (w : ResponseWriter) (req : Request) (s : Store),
    (forall redirectURL : URL,
        url_Parse (url g) = inr redirectURL ->
        redirectGrant_GrantNeeded g user grant w req s
        = ((false, true, None),
           (http_Redirect w req
              (URL_String
                 {| Scheme := Scheme redirectURL;
                    Opaque := Opaque redirectURL;
                    User := User redirectURL;
                    Host := Host redirectURL;
                    Path := Path redirectURL;
                    RawQuery :=
                      "client_id=" ++ QueryEscape (GetId (grant_Client grant))
                      ++ "&redirect_uri=" ++ QueryEscape (grant_RedirectURI grant)
                      ++ "&scopes=" ++ QueryEscape (grant_Scope grant)
                      ++ "&then=" ++ QueryEscape (URL_String (req_URL req));
                    Fragment := Fragment redirectURL |})
              302%Z, s))) /\
    (forall err : error,
        url_Parse (url g) = inl err ->
        redirectGrant_GrantNeeded g user grant w req s
        = ((false, false, Some err), (w, s))).
Proof.
  intros g user grant w req s. split.
  - intros redirectURL Hparse. unfold redirectGrant_GrantNeeded.
    rewrite Hparse, Values_Encode_redirectValues. reflexivity.
  - intros err Hparse. unfold redirectGrant_GrantNeeded.
    rewrite Hparse. reflexivity.
Qed.

End HandlerVariants.

(* ================================================================= *)
(** ** The properties on sample requests *)

Section SampleRuns.

Import Sample.

(** The step on a request that is not authorized. *)
Lemma HandleAuthorize_unauthorized_noop_witness :
  let st := start (request GrantHandlerAuto false (any_user_Info alice)) in
  Authorized (st_ar st) = false /\
  HandleAuthorize firstVisit st = ((false, None), st).
Proof.
  cbv zeta. split; [reflexivity|].
  exact (proj1
           (HandleAuthorize_unauthorized_noop firstVisit
              (start (request GrantHandlerAuto false (any_user_Info alice)))
              eq_refl)).
Defined.

(** The step on a request whose grant is on record. *)
Lemma HandleAuthorize_prior_grant_witness :
  let st := authorizedRequest GrantHandlerPrompt in
  Authorized (st_ar st) = true /\
  assert_user_Info (UserData (st_ar st)) = (Some alice, true) /\
  HasAuthorizedClient (check returningVisit) alice (grantOf (st_ar st))
    (st_store st) = ((true, None), fresh) /\
  Authorized (st_ar (exitState (HandleAuthorize returningVisit) st)) = true.
Proof.
  cbv zeta.
  split; [reflexivity|split; [reflexivity|split; [reflexivity|]]].
  exact (proj1 (proj2
           (HandleAuthorize_prior_grant returningVisit
              (authorizedRequest GrantHandlerPrompt) alice fresh
              eq_refl eq_refl eq_refl))).
Defined.

(** The step when the store times out. *)
Lemma HandleAuthorize_checker_error_witness :
  let st := authorizedRequest GrantHandlerPrompt in
  Authorized (st_ar st) = true /\
  assert_user_Info (UserData (st_ar st)) = (Some alice, true) /\
  HasAuthorizedClient (check storeDown) alice (grantOf (st_ar st))
    (st_store st) = ((false, Some storeTimeout), fresh) /\
  returned (HandleAuthorize storeDown) st
    = fst (GrantError (errorHandler storeDown) storeTimeout (st_w st)
             (HttpRequest (st_ar st)) fresh).
Proof.
  cbv zeta.
  split; [reflexivity|split; [reflexivity|split; [reflexivity|]]].
  exact (proj1
           (HandleAuthorize_checker_error storeDown
              (authorizedRequest GrantHandlerPrompt) alice false storeTimeout
              fresh eq_refl eq_refl eq_refl)).
Defined.

(** The step behind the auto handler and behind the empty handler. *)
Lemma HandleAuthorize_auto_and_empty_witness :
  let st := authorizedRequest GrantHandlerPrompt in
  Authorized (st_ar st) = true /\
  assert_user_Info (UserData (st_ar st)) = (Some alice, true) /\
  HasAuthorizedClient (constantChecker false None) alice (grantOf (st_ar st))
    (st_store st) = ((false, None), fresh) /\
  Authorized
    (st_ar (exitState
              (HandleAuthorize
                 (NewGrantCheck (constantChecker false None) NewAutoGrant
                    renderErrors)) st)) = true /\
  Authorized
    (st_ar (exitState
              (HandleAuthorize
                 (NewGrantCheck (constantChecker false None) NewEmptyGrant
                    renderErrors)) st)) = false.
Proof.
  cbv zeta.
  split; [reflexivity|split; [reflexivity|split; [reflexivity|]]].
  destruct (HandleAuthorize_auto_and_empty (constantChecker false None)
              renderErrors (authorizedRequest GrantHandlerPrompt) alice fresh
              eq_refl eq_refl eq_refl) as [Hauto [Hempty _]].
  unfold exitState. rewrite Hauto, Hempty. split; reflexivity.
Defined.

(** The step on a first visit of a client set to [auto]. *)
Lemma HandleAuthorize_fail_closed_witness :
  let st := authorizedRequest GrantHandlerAuto in
  Authorized (st_ar st) = true /\
  exists evs,
    appended (st_trace st) (st_trace (exitState (HandleAuthorize firstVisit) st))
    = EvSetAuthorized false :: evs.
Proof.
  cbv zeta. split; [reflexivity|].
  exact (proj1
           (HandleAuthorize_fail_closed firstVisit
              (authorizedRequest GrantHandlerAuto) eq_refl)).
Defined.

(** A handler error reaches the caller without a call of the error
    handler: the client's method is not a policy name, the handler returns
    the error, the step returns it with [handled = false], although the
    error handler would have answered [(true, nil)] for it, and the trace
    has no call of the error handler. *)
Lemma HandleAuthorize_handler_error_not_routed :
  fst (GrantNeeded (handler firstVisit) alice (sampleGrant "bogus") blank
         httpReq fresh)
    = (false, false, Some (errors_New (unrecognizedText "bogus"))) /\
  returned (HandleAuthorize firstVisit) (authorizedRequest "bogus")
    = (false, Some (errors_New (unrecognizedText "bogus"))) /\
  fst (GrantError (errorHandler firstVisit)
         (errors_New (unrecognizedText "bogus")) blank httpReq fresh)
    = (true, None) /\
  returned (HandleAuthorize firstVisit) (authorizedRequest "bogus")
    <> fst (GrantError (errorHandler firstVisit)
              (errors_New (unrecognizedText "bogus")) blank httpReq fresh) /\
  existsb isGrantError
    (st_trace (exitState (HandleAuthorize firstVisit) (authorizedRequest "bogus")))
    = false.
Proof.
  split; [reflexivity|split; [reflexivity|split; [reflexivity|split]]].
  - vm_compute. discriminate.
  - reflexivity.
Qed.

(** The three routes of an error on sample requests: user data that is not
    a user, a store that times out, a method that is not a policy name. *)
Lemma HandleAuthorize_error_routes_witness :
  let st := authorizedRequest "bogus" in
  Authorized (st_ar st) = true /\
  returned (HandleAuthorize firstVisit)
    (start (request "bogus" true (any_other "session.Cookie")))
    = (true, None) /\
  returned (HandleAuthorize storeDown) st = (true, None) /\
  returned (HandleAuthorize firstVisit) st
    = (false, Some (errors_New (unrecognizedText "bogus"))).
Proof.
  cbv zeta. split; [reflexivity|].
  split; [|split].
  - destruct (HandleAuthorize_error_routes firstVisit
                (start (request "bogus" true (any_other "session.Cookie")))
                eq_refl) as [Hud _].
    destruct Hud as [Hret _]; [intros user; discriminate|].
    rewrite Hret. reflexivity.
  - destruct (HandleAuthorize_error_routes storeDown
                (authorizedRequest "bogus") eq_refl) as [_ [Hchk _]].
    destruct (Hchk alice false storeTimeout fresh eq_refl eq_refl) as [Hret _].
    rewrite Hret. reflexivity.
  - destruct (HandleAuthorize_error_routes firstVisit
                (authorizedRequest "bogus") eq_refl) as [_ [_ Hgh]].
    exact (proj1 (Hgh alice fresh false false
                    (errors_New (unrecognizedText "bogus")) (blank, fresh)
                    eq_refl eq_refl eq_refl)).
Defined.

(** A stateless checker and a stateless handler do not make two calls
    agree: the user data is not a user, the error handler renders its page
    for the first call only, and the second call, on the same request
    state, returns the error instead. *)
Lemma HandleAuthorize_not_repeatable_counting_errors :
  let st := start (request GrantHandlerPrompt true any_nil) in
  statelessChecker (check countingErrors) /\
  statelessHandler (handler countingErrors) /\
  returned (HandleAuthorize countingErrors) st = (true, None) /\
  returned (HandleAuthorize countingErrors)
    (again st (exitState (HandleAuthorize countingErrors) st))
    = (false, Some (errors_New "the provided user data is not user.Info")) /\
  returned (HandleAuthorize countingErrors)
    (again st (exitState (HandleAuthorize countingErrors) st))
    <> returned (HandleAuthorize countingErrors) st.
Proof.
  cbv zeta. split; [|split; [|split; [|split]]].
  - intros u g s s'. reflexivity.
  - intros u g req w s w' s'. split; reflexivity.
  - reflexivity.
  - reflexivity.
  - vm_compute. discriminate.
Qed.

(** Two calls on a first visit of a client set to [prompt], with stateless
    collaborators: both return [(true, nil)] after the redirect. *)
Lemma HandleAuthorize_repeatable_witness :
  let st := authorizedRequest GrantHandlerPrompt in
  statelessChecker (check firstVisit) /\
  statelessHandler (handler firstVisit) /\
  statelessErrorHandler (errorHandler firstVisit) /\
  returned (HandleAuthorize firstVisit)
    (again st (exitState (HandleAuthorize firstVisit) st))
    = returned (HandleAuthorize firstVisit) st.
Proof.
  cbv zeta.
  assert (Hc : statelessChecker (check firstVisit)).
  { intros u g s s'. reflexivity. }
  assert (Hg : statelessHandler (handler firstVisit)).
  { intros u g req w s w' s'. cbn.
    unfold perClientGrant_GrantNeeded.
    destruct (assert_OAuthClient (GetUserData (grant_Client g))) as [[c|] [|]];
      try (split; reflexivity).
    cbv zeta.
    repeat match goal with
           | |- context [if String.eqb ?m ?k then _ else _] =>
               destruct (String.eqb m k)
           end;
      split; reflexivity. }
  assert (He : statelessErrorHandler (errorHandler firstVisit)).
  { intros e req w s w' s'. split; reflexivity. }
  split; [exact Hc|split; [exact Hg|split; [exact He|]]].
  exact (proj1 (HandleAuthorize_repeatable firstVisit
                  (authorizedRequest GrantHandlerPrompt) Hc Hg He)).
Defined.

(** A method with a quote in it: [%q] puts a backslash before the quote,
    and the text of the error does not contain the method. *)
Lemma unrecognized_method_text_escapes_quote :
  recognizedMethod quotedMethod = false /\
  fst (perClientGrant_GrantNeeded
         (mkPerClientGrant NewAutoGrant (NewRedirectGrant consent)
            NewEmptyGrant GrantHandlerPrompt)
         alice (sampleGrant quotedMethod) blank httpReq fresh)
    = (false, false,
       Some (errors_New
               ("OAuth client grant method "
                ++ String dquote
                     (String "a" (String backslash (String dquote
                        (String "b" (String dquote " unrecognized")))))))) /\
  strings_Contains
    ("OAuth client grant method "
     ++ String dquote
          (String "a" (String backslash (String dquote
             (String "b" (String dquote " unrecognized"))))))
    quotedMethod = false.
Proof. repeat split. Qed.

(** The dispatch on a client whose method is not a policy name. *)
Lemma perClientGrant_dispatch_witness :
  GetUserData (grant_Client (sampleGrant "bogus"))
    = any_OAuthClient (mkOAuthClient "abc" "bogus") /\
  "bogus" = (if String.eqb (GrantMethod (mkOAuthClient "abc" "bogus")) EmptyString
             then GrantHandlerPrompt else GrantMethod (mkOAuthClient "abc" "bogus")) /\
  strings_Contains
    ("OAuth client grant method " ++ strconv_Quote quoteFrom "bogus"
     ++ " unrecognized") "bogus" = true.
Proof.
  split; [reflexivity|split; [reflexivity|]].
  destruct (perClientGrant_dispatch
              (mkPerClientGrant NewAutoGrant (NewRedirectGrant consent)
                 NewEmptyGrant GrantHandlerPrompt)
              alice (sampleGrant "bogus") blank httpReq fresh
              (mkOAuthClient "abc" "bogus") "bogus" eq_refl eq_refl)
    as [_ [_ [_ Hother]]].
  exact (proj2 (Hother eq_refl) eq_refl).
Defined.

(** The dispatch on a client with no method under an empty default. *)
Lemma perClientGrant_empty_default_witness :
  GetUserData (grant_Client (sampleGrant EmptyString))
    = any_OAuthClient (mkOAuthClient "abc" EmptyString) /\
  GrantMethod (mkOAuthClient "abc" EmptyString) = EmptyString /\
  GrantNeeded (NewPerClientGrant (NewRedirectGrant consent) EmptyString)
    alice (sampleGrant EmptyString) blank httpReq fresh
    = ((false, false,
        Some (errors_New ("OAuth client grant method "
                          ++ String dquote (String dquote " unrecognized")))),
       (blank, fresh)).
Proof.
  split; [reflexivity|split; [reflexivity|]].
  exact (proj2 (perClientGrant_empty_default
                  (mkPerClientGrant NewAutoGrant (NewRedirectGrant consent)
                     NewEmptyGrant EmptyString)
                  alice (sampleGrant EmptyString) blank httpReq fresh
                  (mkOAuthClient "abc" EmptyString) eq_refl eq_refl eq_refl)
               (NewRedirectGrant consent)).
Defined.

(** The redirect of the sample request: the query the consent page is
    given. *)
Example redirectGrant_sample_query :
  Values_Encode (redirectValues (sampleGrant GrantHandlerPrompt) httpReq)
  = "client_id=abc&redirect_uri=https%3A%2F%2Fapp.example%2Fcb&scopes=read+write&then=https%3A%2F%2Fas.example%2Fauthorize%3Fx%3D1".
Proof. reflexivity. Qed.

End SampleRuns.

(* ================================================================= *)
(** ** Further properties of the decision step *)

Section DecisionStepFrame.

Context {rt : GoRuntime}.

Ltac run_step :=
  unfold exitState, returned, HandleAuthorize, bind, ret, readRequest,
    assignAuthorized, callHasAuthorizedClient, callGrantNeeded, callGrantError;
  cbn.

Lemma appended_suffix (before evs : list Event) :
  appended before (before ++ evs) = evs.
Proof.
  unfold appended. induction before as [|e before IH]; cbn; trivial.
Qed.

Lemma set_Authorized_same (ar : AuthorizeRequest) :
  set_Authorized ar (Authorized ar) = ar.
Proof. destruct ar; reflexivity. Qed.

(** X1. Whatever the three collaborators do, the step changes no field of
    the request but [Authorized], and it only adds to the trace. *)
Theorem HandleAuthorize_frame :
  forall (h : GrantCheck) (st : State),
    st_ar (exitState (HandleAuthorize h) st)
      = set_Authorized (st_ar st)
          (Authorized (st_ar (exitState (HandleAuthorize h) st))) /\
    st_trace (exitState (HandleAuthorize h) st)
      = (st_trace st
         ++ appended (st_trace st)
              (st_trace (exitState (HandleAuthorize h) st)))%list.
Proof.
  intros h st. run_step.
  destruct (st_ar st) as [cl sc ru [|] ex ud rq] eqn:Har; cbn.
  2: { rewrite Har. cbn. rewrite appended_nil, app_nil_r. split; reflexivity. }
  destruct ud as [|u|c|t]; cbn.
  2: {
    destruct (HasAuthorizedClient (check h) u _ (st_store st))
      as [[[|] [err|]] s1]; cbn.
    1, 3: destruct (GrantError (errorHandler h) err (st_w st) rq s1)
        as [r [w' s'']]; cbn;
      rewrite ?Har; cbn; rewrite <- !app_assoc, appended_suffix; split; reflexivity.
    - rewrite ?Har; cbn; rewrite <- !app_assoc, appended_suffix; split; reflexivity.
    - destruct (GrantNeeded (handler h) u _ (st_w st) rq s1)
        as [[[[|] handled] err] [w' s'']]; cbn;
        rewrite ?Har; cbn; rewrite <- !app_assoc, appended_suffix; split; reflexivity.
  }
  all: destruct (GrantError (errorHandler h) _ (st_w st) rq (st_store st))
      as [r [w' s'']]; cbn;
    rewrite ?Har; cbn; rewrite <- !app_assoc, appended_suffix; split; reflexivity.
Qed.

(** X2. The step follows one of six courses. It does nothing; or it resets
    the flag and then either reports the user data to the error handler, or
    asks the checker and then reports the checker's error, or sets the flag
    on a hit, or asks the handler and sets the flag or leaves it. So each
    collaborator is called at most once, always with the grant built from
    the request, the handler only after the checker, and never both the
    handler and the error handler. *)
Theorem HandleAuthorize_trace_shapes :
  forall (h : GrantCheck) (st : State),
    let g := grantOf (st_ar st) in
    let evs :=
      appended (st_trace st) (st_trace (exitState (HandleAuthorize h) st)) in
    evs = [] \/
    (exists e, evs = [EvSetAuthorized false; EvGrantError e]) \/
    (exists u e,
        evs = [EvSetAuthorized false; EvHasAuthorizedClient u g; EvGrantError e]) \/
    (exists u,
        evs = [EvSetAuthorized false; EvHasAuthorizedClient u g;
               EvSetAuthorized true]) \/
    (exists u,
        evs = [EvSetAuthorized false; EvHasAuthorizedClient u g;
               EvGrantNeeded u g; EvSetAuthorized true]) \/
    (exists u,
        evs = [EvSetAuthorized false; EvHasAuthorizedClient u g;
               EvGrantNeeded u g]).
Proof.
  intros h st. cbv zeta. run_step.
  destruct (Authorized (st_ar st)); cbn.
  2: { left. apply appended_nil. }
  right.
  destruct (UserData (st_ar st)) as [|u|c|t]; cbn.
  2: {
    right.
    destruct (HasAuthorizedClient (check h) u (grantOf (st_ar st)) (st_store st))
      as [[[|] [err|]] s1]; cbn.
    1, 3: destruct (GrantError (errorHandler h) err (st_w st)
                      (HttpRequest (st_ar st)) s1) as [r [w' s'']]; cbn;
      rewrite <- !app_assoc, appended_suffix; left; exists u, err; reflexivity.
    - rewrite <- !app_assoc, appended_suffix. right; left. exists u. reflexivity.
    - destruct (GrantNeeded (handler h) u (grantOf (st_ar st)) (st_w st)
                  (HttpRequest (st_ar st)) s1)
        as [[[[|] handled] err] [w' s'']]; cbn;
        rewrite <- !app_assoc, appended_suffix; right; right;
        [left|right]; exists u; reflexivity.
  }
  all: destruct (GrantError (errorHandler h) _ (st_w st)
                   (HttpRequest (st_ar st)) (st_store st)) as [r [w' s'']]; cbn;
    rewrite <- !app_assoc, appended_suffix; left; eexists; reflexivity.
Qed.

(** X3. The step writes no response of its own: when neither the handler
    nor the error handler was called, the response writer is as it was on
    entry. *)
Theorem HandleAuthorize_writes_through_collaborators :
  forall (h : GrantCheck) (st : State),
    existsb isGrantNeeded
      (appended (st_trace st) (st_trace (exitState (HandleAuthorize h) st)))
      = false ->
    existsb isGrantError
      (appended (st_trace st) (st_trace (exitState (HandleAuthorize h) st)))
      = false ->
    st_w (exitState (HandleAuthorize h) st) = st_w st.
Proof.
  intros h st. run_step.
  destruct (Authorized (st_ar st)); cbn; [|reflexivity].
  destruct (UserData (st_ar st)) as [|u|c|t]; cbn.
  2: {
    destruct (HasAuthorizedClient (check h) u (grantOf (st_ar st)) (st_store st))
      as [[[|] [err|]] s1]; cbn.
    1, 3: destruct (GrantError (errorHandler h) err (st_w st)
                      (HttpRequest (st_ar st)) s1) as [r [w' s'']]; cbn;
      rewrite <- !app_assoc, appended_suffix; cbn; discriminate.
    - reflexivity.
    - destruct (GrantNeeded (handler h) u (grantOf (st_ar st)) (st_w st)
                  (HttpRequest (st_ar st)) s1)
        as [[[[|] handled] err] [w' s'']]; cbn;
        rewrite <- !app_assoc, appended_suffix; cbn; discriminate.
  }
  all: destruct (GrantError (errorHandler h) _ (st_w st)
                   (HttpRequest (st_ar st)) (st_store st)) as [r [w' s'']]; cbn;
    rewrite <- !app_assoc, appended_suffix; cbn; discriminate.
Qed.

End DecisionStepFrame.

(* ================================================================= *)
(** ** Further properties of the handlers *)

Section HandlerComposition.

Context {rt : GoRuntime}.

Ltac run_step' :=
  unfold exitState, returned, HandleAuthorize, bind, ret, readRequest,
    assignAuthorized, callHasAuthorizedClient, callGrantNeeded, callGrantError;
  cbn.

Lemma empty_method_eqb (m : string) :
  (String.length m =? 0)%nat = String.eqb m EmptyString.
Proof. destruct m; reflexivity. Qed.

(** X4. Behind the empty handler or a redirect handler the step leaves
    [Authorized] true only for a prior grant: the request was authorized on
    entry, its user data is a user, and the checker answered [(true, nil)].
    Neither handler ever authorizes. *)
Theorem HandleAuthorize_needs_prior_grant :
  forall (c : GrantChecker) (eh : GrantErrorHandler) (gh : GrantHandler)
         (st : State),
    (gh = NewEmptyGrant \/ exists url, gh = NewRedirectGrant url) ->
    Authorized (st_ar (exitState (HandleAuthorize (NewGrantCheck c gh eh)) st))
      = true ->
    Authorized (st_ar st) = true /\
    exists user s1,
      assert_user_Info (UserData (st_ar st)) = (Some user, true) /\
      HasAuthorizedClient c user (grantOf (st_ar st)) (st_store st)
        = ((true, None), s1).
Proof.
  intros c eh gh st Hgh. run_step'.
  destruct (Authorized (st_ar st)) eqn:Hentry; cbn; [|congruence].
  destruct (UserData (st_ar st)) as [|u|cl|t]; cbn.
  2: {
    destruct (HasAuthorizedClient c u (grantOf (st_ar st)) (st_store st))
      as [[[|] [err|]] s1] eqn:Hc; cbn.
    1, 3: destruct (GrantError eh err (st_w st) (HttpRequest (st_ar st)) s1)
        as [r [w' s'']]; cbn; discriminate.
    - intros _. split; [reflexivity|]. exists u, s1.
      split; [reflexivity|exact Hc].
    - destruct Hgh as [->|[url ->]]; cbn; [discriminate|].
      unfold redirectGrant_GrantNeeded. cbn.
      destruct (url_Parse url); cbn; discriminate.
  }
  all: destruct (GrantError eh _ (st_w st) (HttpRequest (st_ar st)) (st_store st))
      as [r [w' s'']]; cbn; discriminate.
Qed.

(** X5. A handler built by [NewPerClientGrant] authorizes exactly when the
    client's user data is an OAuth client and the method, the client's own
    or else the default, is [auto], or is [prompt] with a prompt handler
    that authorizes. A client set to [deny], a method that is not
    recognized and a client record of another type never authorize. *)
Theorem NewPerClientGrant_authorizes_iff :
  forall (promptHandler : GrantHandler) (d : GrantHandlerType)
         (u : user_Info) (g : Grant) (w : ResponseWriter) (req : Request)
         (s : Store),
    fst (fst (fst (GrantNeeded (NewPerClientGrant promptHandler d) u g w req s)))
      = true
    <->
    exists client,
      GetUserData (grant_Client g) = any_OAuthClient client /\
      ((if String.eqb (GrantMethod client) EmptyString
        then d else GrantMethod client) = GrantHandlerAuto
       \/
       ((if String.eqb (GrantMethod client) EmptyString
         then d else GrantMethod client) = GrantHandlerPrompt /\
        fst (fst (fst (GrantNeeded promptHandler u g w req s))) = true)).
Proof.
  intros promptHandler d u g w req s.
  cbn [GrantNeeded NewPerClientGrant]. unfold perClientGrant_GrantNeeded.
  destruct (GetUserData (grant_Client g)) as [|ui|client|t] eqn:Hdata;
    cbn [assert_OAuthClient auto prompt deny defaultMethod].
  3: {
    cbv zeta. rewrite empty_method_eqb.
    set (m := if String.eqb (GrantMethod client) EmptyString
              then d else GrantMethod client).
    destruct (String.eqb m GrantHandlerAuto) eqn:Ha.
    - apply String.eqb_eq in Ha. split; [|reflexivity].
      intros _. exists client. split; [reflexivity|left; exact Ha].
    - destruct (String.eqb m GrantHandlerPrompt) eqn:Hp.
      + apply String.eqb_eq in Hp. split.
        * intros H. exists client. split; [reflexivity|right; split; assumption].
        * intros [cl [Hcl [H|[_ H]]]]; injection Hcl as <-; fold m in H;
            [rewrite H in Ha; discriminate|exact H].
      + destruct (String.eqb m GrantHandlerDeny); cbn;
          (split; [discriminate|]);
          intros [cl [Hcl [H|[H _]]]]; injection Hcl as <-; fold m in H;
          rewrite H in *; discriminate.
  }
  all: cbn; split; [discriminate|intros [cl [Hcl _]]; discriminate].
Qed.

(** X6. A client's own method, when it is not empty, decides alone: two
    handlers built by [NewPerClientGrant] around the same prompt handler
    agree on every grant of that client, whatever their defaults. *)
Theorem NewPerClientGrant_client_method_overrides :
  forall (promptHandler : GrantHandler) (d1 d2 : GrantHandlerType)
         (u : user_Info) (g : Grant) (w : ResponseWriter) (req : Request)
         (s : Store) (client : OAuthClient),
    GetUserData (grant_Client g) = any_OAuthClient client ->
    GrantMethod client <> EmptyString ->
    GrantNeeded (NewPerClientGrant promptHandler d1) u g w req s
      = GrantNeeded (NewPerClientGrant promptHandler d2) u g w req s.
Proof.
  intros promptHandler d1 d2 u g w req s client Hdata Hmethod.
  cbn [GrantNeeded NewPerClientGrant]. unfold perClientGrant_GrantNeeded.
  rewrite Hdata. cbn [assert_OAuthClient defaultMethod]. cbv zeta.
  rewrite empty_method_eqb.
  destruct (String.eqb (GrantMethod client) EmptyString) eqn:He;
    [apply String.eqb_eq in He; contradiction|reflexivity].
Qed.

(** X7. When the client's user data is not an OAuth client, the step behind
    a handler built by [NewPerClientGrant] returns the handler's error
    [unrecognized OAuth client type] with [handled = false]: the flag stays
    false, nothing is written, no sub-handler runs, and the error handler
    is not called. *)
Theorem HandleAuthorize_unrecognized_client_type :
  forall (c : GrantChecker) (eh : GrantErrorHandler)
         (promptHandler : GrantHandler) (d : GrantHandlerType) (st : State)
         (user : user_Info) (s1 : Store),
    Authorized (st_ar st) = true ->
    assert_user_Info (UserData (st_ar st)) = (Some user, true) ->
    HasAuthorizedClient c user (grantOf (st_ar st)) (st_store st)
      = ((false, None), s1) ->
    (forall client,
        GetUserData (ar_Client (st_ar st)) <> any_OAuthClient client) ->
    HandleAuthorize (NewGrantCheck c (NewPerClientGrant promptHandler d) eh) st
      = ((false, Some (errors_New "unrecognized OAuth client type")),
         {| st_ar := set_Authorized (st_ar st) false;
            st_w := st_w st;
            st_store := s1;
            st_trace := (st_trace st ++
                          [EvSetAuthorized false;
                           EvHasAuthorizedClient user (grantOf (st_ar st));
                           EvGrantNeeded user (grantOf (st_ar st))])%list |}).
Proof.
  intros c eh promptHandler d st user s1 Hentry Huser Hcheck Hclient.
  run_step'. rewrite Hentry. cbn. rewrite Huser. cbn. rewrite Hcheck. cbn.
  unfold perClientGrant_GrantNeeded. cbn.
  destruct (GetUserData (ar_Client (st_ar st))) as [|ui|client|t] eqn:Hdata; cbn.
  3: { exfalso. apply (Hclient client). reflexivity. }
  all: rewrite <- !app_assoc; reflexivity.
Qed.

(** X8. No handler of this file reads or updates the store or lets the
    contents of the response writer decide its result: the empty, the auto
    and every redirect handler are stateless, and a handler built by
    [NewPerClientGrant] is stateless when its prompt handler is. *)
Theorem handlers_stateless :
  statelessHandler NewEmptyGrant /\
  statelessHandler NewAutoGrant /\
  (forall url, statelessHandler (NewRedirectGrant url)) /\
  (forall promptHandler d,
      statelessHandler promptHandler ->
      statelessHandler (NewPerClientGrant promptHandler d)).
Proof.
  split; [|split; [|split]].
  - intros u g req w s w' s'. split; reflexivity.
  - intros u g req w s w' s'. split; reflexivity.
  - intros url u g req w s w' s'. cbn. unfold redirectGrant_GrantNeeded. cbn.
    destruct (url_Parse url); split; reflexivity.
  - intros promptHandler d Hp u g req w s w' s'.
    cbn [GrantNeeded NewPerClientGrant]. unfold perClientGrant_GrantNeeded.
    destruct (assert_OAuthClient (GetUserData (grant_Client g))) as [[cl|] [|]];
      try (split; reflexivity).
    cbn [auto prompt deny defaultMethod]. cbv zeta.
    repeat match goal with
           | |- context [if String.eqb ?m ?k then _ else _] =>
               destruct (String.eqb m k)
           end;
      try (split; reflexivity).
    apply Hp.
Qed.

(** X9. Behind the per-client handler whose prompt is a redirect, a miss
    of the checker that the step reports as handled is a redirect: the
    step returns no error, the flag is false, the store is as the checker
    left it, the configured URL parsed, and the response writer holds the
    302 to the configured URL whose query is now [client_id], [redirect_uri],
    [scopes] and [then] with the escaped client id, redirect URI, scope and
    request URL of the request the step was given. *)
Theorem HandleAuthorize_handled_is_redirect :
  forall (c : GrantChecker) (eh : GrantErrorHandler) (url : string)
         (d : GrantHandlerType) (st : State) (user : user_Info) (s1 : Store),
    Authorized (st_ar st) = true ->
    assert_user_Info (UserData (st_ar st)) = (Some user, true) ->
    HasAuthorizedClient c user (grantOf (st_ar st)) (st_store st)
      = ((false, None), s1) ->
    fst (returned
           (HandleAuthorize
              (NewGrantCheck c (NewPerClientGrant (NewRedirectGrant url) d) eh))
           st) = true ->
    snd (returned
           (HandleAuthorize
              (NewGrantCheck c (NewPerClientGrant (NewRedirectGrant url) d) eh))
           st) = None /\
    Authorized
      (st_ar (exitState
                (HandleAuthorize
                   (NewGrantCheck c (NewPerClientGrant (NewRedirectGrant url) d) eh))
                st)) = false /\
    st_store
      (exitState
         (HandleAuthorize
            (NewGrantCheck c (NewPerClientGrant (NewRedirectGrant url) d) eh))
         st) = s1 /\
    exists redirectURL,
      url_Parse url = inr redirectURL /\
      st_w (exitState
              (HandleAuthorize
                 (NewGrantCheck c (NewPerClientGrant (NewRedirectGrant url) d) eh))
              st)
      = http_Redirect (st_w st) (HttpRequest (st_ar st))
          (URL_String
             {| Scheme := Scheme redirectURL;
                Opaque := Opaque redirectURL;
                User := User redirectURL;
                Host := Host redirectURL;
                Path := Path redirectURL;
                RawQuery :=
                  "client_id=" ++ QueryEscape (GetId (ar_Client (st_ar st)))
                  ++ "&redirect_uri=" ++ QueryEscape (RedirectUri (st_ar st))
                  ++ "&scopes=" ++ QueryEscape (Scope (st_ar st))
                  ++ "&then="
                  ++ QueryEscape (URL_String (req_URL (HttpRequest (st_ar st))));
                Fragment := Fragment redirectURL |})
          302%Z.
Proof.
  intros c eh url d st user s1 Hentry Huser Hcheck.
  run_step'. rewrite Hentry. cbn. rewrite Huser. cbn. rewrite Hcheck. cbn.
  unfold perClientGrant_GrantNeeded. cbn.
  destruct (GetUserData (ar_Client (st_ar st))) as [|ui|client|t]; cbn;
    try discriminate.
  repeat match goal with
         | |- context [if String.eqb ?m ?k then _ else _] =>
             destruct (String.eqb m k)
         end; cbn; try discriminate.
  unfold redirectGrant_GrantNeeded. cbn - [Values_Encode].
  destruct (url_Parse url) as [err|redirectURL]; cbn - [Values_Encode];
    [discriminate|].
  intros _. repeat split. exists redirectURL. split; [reflexivity|].
  rewrite Values_Encode_redirectValues. reflexivity.
Qed.

End HandlerComposition.

(* ================================================================= *)
(** ** The query of the redirect *)

Section RedirectQuery.

Context {rt : GoRuntime}.

Lemma unescapeHead_QueryEscape (c : ascii) (s : string) :
  unescapeHead (QueryEscape (String c s)) = Some (c, QueryEscape s).
Proof.
  destruct c as [[|] [|] [|] [|] [|] [|] [|] [|]]; reflexivity.
Qed.

Lemma QueryEscape_head_chars (c : ascii) (s : string) :
  stringAll queryChar (QueryEscape s) = true ->
  stringAll queryChar (QueryEscape (String c s)) = true.
Proof.
  intros H.
  destruct c as [[|] [|] [|] [|] [|] [|] [|] [|]];
    cbn [QueryEscape]; cbv - [stringAll QueryEscape queryChar];
    cbn [stringAll]; rewrite H; reflexivity.
Qed.

Lemma QueryEscape_chars (s : string) :
  stringAll queryChar (QueryEscape s) = true.
Proof.
  induction s as [|c s IH]; [reflexivity|].
  apply QueryEscape_head_chars, IH.
Qed.

Lemma queryChar_not_delimiter (c : ascii) :
  queryChar c = true -> queryDelimiter c = false.
Proof.
  destruct c as [[|] [|] [|] [|] [|] [|] [|] [|]]; cbv; congruence.
Qed.

Lemma stringAll_impl (p q : ascii -> bool) (s : string) :
  (forall c, p c = true -> q c = true) ->
  stringAll p s = true -> stringAll q s = true.
Proof.
  intros Hpq. induction s as [|c s IH]; cbn; [reflexivity|].
  intros H. apply andb_prop in H as [Hc Hs].
  rewrite (Hpq c Hc), (IH Hs). reflexivity.
Qed.

Lemma QueryEscape_no_delimiter (s : string) :
  stringAll (fun c => negb (queryDelimiter c)) (QueryEscape s) = true.
Proof.
  apply (stringAll_impl queryChar); [|apply QueryEscape_chars].
  intros c Hc. rewrite (queryChar_not_delimiter c Hc). reflexivity.
Qed.

Lemma QueryEscape_injective (s1 s2 : string) :
  QueryEscape s1 = QueryEscape s2 -> s1 = s2.
Proof.
  revert s2. induction s1 as [|c1 s1 IH]; intros [|c2 s2] H.
  - reflexivity.
  - apply (f_equal unescapeHead) in H.
    rewrite unescapeHead_QueryEscape in H. discriminate.
  - apply (f_equal unescapeHead) in H.
    rewrite unescapeHead_QueryEscape in H. discriminate.
  - apply (f_equal unescapeHead) in H.
    rewrite !unescapeHead_QueryEscape in H.
    injection H as -> H. rewrite (IH s2 H). reflexivity.
Qed.

(** Two strings without [&] that are followed by [&] and agree as a whole
    agree part by part. *)
Lemma split_at_ampersand (x x' y y' : string) :
  stringAll (fun c => negb (queryDelimiter c)) x = true ->
  stringAll (fun c => negb (queryDelimiter c)) x' = true ->
  x ++ String "&" y = x' ++ String "&" y' ->
  x = x' /\ y = y'.
Proof.
  revert x'. induction x as [|c x IH]; intros [|c' x'] Hx Hx' H; cbn in *.
  - injection H as ->. split; reflexivity.
  - injection H as <- _. cbn in Hx'. discriminate.
  - injection H as -> _. cbn in Hx. discriminate.
  - injection H as -> H.
    apply andb_prop in Hx as [_ Hx]. apply andb_prop in Hx' as [_ Hx'].
    destruct (IH x' Hx Hx' H) as [-> ->]. split; reflexivity.
Qed.

(** X10. Whatever the client's id, the scope, the redirect target and the
    URL of the request contain, as escaped by [QueryEscape] they are made
    of letters, digits, [-], [_], [.], [~], [+] and [%] only: none of them
    can bring a [&], [=], [#], [?] or space of its own into the query of
    the redirect. *)
Theorem QueryEscape_output_is_safe :
  forall s : string,
    stringAll queryChar (QueryEscape s) = true /\
    stringAll (fun c => negb (queryDelimiter c)) (QueryEscape s) = true.
Proof.
  intros s. split; [apply QueryEscape_chars|apply QueryEscape_no_delimiter].
Qed.

(** X11. The query of the redirect determines its four values: two grants
    and requests that give the same query have the same client id, the
    same redirect target, the same scope and the same request URL. *)
Theorem redirect_query_determines_values :
  forall (g1 g2 : Grant) (r1 r2 : Request),
    Values_Encode (redirectValues g1 r1) = Values_Encode (redirectValues g2 r2) ->
    GetId (grant_Client g1) = GetId (grant_Client g2) /\
    grant_RedirectURI g1 = grant_RedirectURI g2 /\
    grant_Scope g1 = grant_Scope g2 /\
    URL_String (req_URL r1) = URL_String (req_URL r2).
Proof.
  intros g1 g2 r1 r2 H.
  rewrite !Values_Encode_redirectValues in H.
  cbn in H. injection H as H.
  change ("&redirect_uri=" ++ ?x) with (String "&" ("redirect_uri=" ++ x)) in H.
  apply split_at_ampersand in H as [Hid H];
    try apply QueryEscape_no_delimiter.
  cbn in H. injection H as H.
  apply split_at_ampersand in H as [Huri H];
    try apply QueryEscape_no_delimiter.
  cbn in H. injection H as H.
  apply split_at_ampersand in H as [Hscope H];
    try apply QueryEscape_no_delimiter.
  cbn in H. injection H as H.
  repeat split; apply QueryEscape_injective; assumption.
Qed.

End RedirectQuery.

(* ================================================================= *)
(** ** The further properties on sample requests *)

Section FurtherSampleRuns.

Import Sample.

(** A returning visit leaves the response as it was. *)
Lemma HandleAuthorize_writes_through_collaborators_witness :
  let st := authorizedRequest GrantHandlerPrompt in
  existsb isGrantNeeded
    (appended (st_trace st) (st_trace (exitState (HandleAuthorize returningVisit) st)))
    = false /\
  existsb isGrantError
    (appended (st_trace st) (st_trace (exitState (HandleAuthorize returningVisit) st)))
    = false /\
  st_w (exitState (HandleAuthorize returningVisit) st) = st_w st.
Proof.
  cbv zeta. split; [reflexivity|split; [reflexivity|]].
  exact (HandleAuthorize_writes_through_collaborators returningVisit
           (authorizedRequest GrantHandlerPrompt) eq_refl eq_refl).
Defined.

(** A returning visit behind a redirect handler. *)
Lemma HandleAuthorize_needs_prior_grant_witness :
  let st := authorizedRequest GrantHandlerPrompt in
  let h := NewGrantCheck (constantChecker true None) (NewRedirectGrant consent)
             renderErrors in
  (NewRedirectGrant consent = NewEmptyGrant
   \/ exists url, NewRedirectGrant consent = NewRedirectGrant url) /\
  Authorized (st_ar (exitState (HandleAuthorize h) st)) = true /\
  Authorized (st_ar st) = true.
Proof.
  cbv zeta.
  assert (Hgh : NewRedirectGrant consent = NewEmptyGrant
                \/ exists url, NewRedirectGrant consent = NewRedirectGrant url).
  { right. exists consent. reflexivity. }
  split; [exact Hgh|split; [reflexivity|]].
  exact (proj1 (HandleAuthorize_needs_prior_grant (constantChecker true None)
                  renderErrors (NewRedirectGrant consent)
                  (authorizedRequest GrantHandlerPrompt) Hgh eq_refl)).
Defined.

(** A client set to [deny] under two defaults. *)
Lemma NewPerClientGrant_client_method_overrides_witness :
  GetUserData (grant_Client (sampleGrant GrantHandlerDeny))
    = any_OAuthClient (mkOAuthClient "abc" GrantHandlerDeny) /\
  GrantMethod (mkOAuthClient "abc" GrantHandlerDeny) <> EmptyString /\
  GrantNeeded (NewPerClientGrant (NewRedirectGrant consent) GrantHandlerAuto)
    alice (sampleGrant GrantHandlerDeny) blank httpReq fresh
  = GrantNeeded (NewPerClientGrant (NewRedirectGrant consent) GrantHandlerPrompt)
      alice (sampleGrant GrantHandlerDeny) blank httpReq fresh.
Proof.
  assert (Hne : GrantMethod (mkOAuthClient "abc" GrantHandlerDeny) <> EmptyString).
  { discriminate. }
  split; [reflexivity|split; [exact Hne|]].
  exact (NewPerClientGrant_client_method_overrides (NewRedirectGrant consent)
           GrantHandlerAuto GrantHandlerPrompt alice
           (sampleGrant GrantHandlerDeny) blank httpReq fresh
           (mkOAuthClient "abc" GrantHandlerDeny) eq_refl Hne).
Defined.

(** A first visit for the legacy client. *)
Lemma HandleAuthorize_unrecognized_client_type_witness :
  Authorized (st_ar legacyRequest) = true /\
  assert_user_Info (UserData (st_ar legacyRequest)) = (Some alice, true) /\
  HasAuthorizedClient (check firstVisit) alice (grantOf (st_ar legacyRequest))
    (st_store legacyRequest) = ((false, None), fresh) /\
  (forall client,
      GetUserData (ar_Client (st_ar legacyRequest)) <> any_OAuthClient client) /\
  returned (HandleAuthorize firstVisit) legacyRequest
    = (false, Some (errors_New "unrecognized OAuth client type")).
Proof.
  assert (Hclient : forall client,
             GetUserData (ar_Client (st_ar legacyRequest))
             <> any_OAuthClient client).
  { intros client. discriminate. }
  split; [reflexivity|split; [reflexivity|split; [reflexivity|]]].
  split; [exact Hclient|].
  exact (f_equal fst
           (HandleAuthorize_unrecognized_client_type (constantChecker false None)
              renderErrors (NewRedirectGrant consent) GrantHandlerPrompt
              legacyRequest alice fresh eq_refl eq_refl eq_refl Hclient)).
Defined.

(** Two grants that differ in their expiration only give the same query. *)
Lemma redirect_query_determines_values_witness :
  Values_Encode (redirectValues (sampleGrant GrantHandlerPrompt) httpReq)
    = Values_Encode (redirectValues shortGrant httpReq) /\
  grant_Scope (sampleGrant GrantHandlerPrompt) = grant_Scope shortGrant.
Proof.
  split; [reflexivity|].
  exact (proj1 (proj2 (proj2
           (redirect_query_determines_values (sampleGrant GrantHandlerPrompt)
              shortGrant httpReq httpReq eq_refl)))).
Defined.

End FurtherSampleRuns.

(* ================================================================= *)
(** ** The handler that authorizes and fails *)

Section HandlerErrorWithGrant.

Context {rt : GoRuntime}.

(** C1. Where the step does not fail closed. The flag is reset at the start
    and every path through the error handler ends with [Authorized] false,
    but the result of the handler is not checked for an error before the
    flag is set: when the checker misses and the handler returns
    [authorized = true] together with an error, the step returns that
    error next to the handler's [handled], leaves [Authorized] true and
    does not call the error handler. The comment of [HandleAuthorize] says
    that [Authorized] is set to false when an error occurs. *)
Theorem HandleAuthorize_authorized_despite_error :
  forall (h : GrantCheck) (st : State) (user : user_Info) (s1 : Store)
         (handled : bool) (err : error) (out : ResponseWriter * Store),
    Authorized (st_ar st) = true ->
    assert_user_Info (UserData (st_ar st)) = (Some user, true) ->
    HasAuthorizedClient (check h) user (grantOf (st_ar st)) (st_store st)
      = ((false, None), s1) ->
    GrantNeeded (handler h) user (grantOf (st_ar st)) (st_w st)
      (HttpRequest (st_ar st)) s1
      = ((true, handled, Some err), out) ->
    returned (HandleAuthorize h) st = (handled, Some err) /\
    Authorized (st_ar (exitState (HandleAuthorize h) st)) = true /\
    appended (st_trace st) (st_trace (exitState (HandleAuthorize h) st))
      = [EvSetAuthorized false;
         EvHasAuthorizedClient user (grantOf (st_ar st));
         EvGrantNeeded user (grantOf (st_ar st));
         EvSetAuthorized true].
Proof.
  intros h st user s1 handled err [w' s''] Hentry Huser Hcheck Hneeded.
  unfold returned, exitState, HandleAuthorize, bind, ret, readRequest,
    assignAuthorized, callHasAuthorizedClient, callGrantNeeded. cbn.
  rewrite Hentry. cbn. rewrite Huser. cbn. rewrite Hcheck. cbn.
  rewrite Hneeded. cbn. rewrite <- !app_assoc, appended_suffix.
  repeat split.
Qed.

End HandlerErrorWithGrant.

Section HandlerErrorWithGrantSample.

Import Sample.

(** A first visit behind a prompt handler that authorizes and fails: the
    caller gets the error, and the request is authorized. *)
Lemma HandleAuthorize_authorized_despite_error_witness :
  let st := authorizedRequest GrantHandlerPrompt in
  Authorized (st_ar st) = true /\
  assert_user_Info (UserData (st_ar st)) = (Some alice, true) /\
  HasAuthorizedClient (check promptFails) alice (grantOf (st_ar st))
    (st_store st) = ((false, None), fresh) /\
  GrantNeeded (handler promptFails) alice (grantOf (st_ar st)) (st_w st)
    (HttpRequest (st_ar st)) fresh
    = ((true, true, Some teapot), ((blank ++ [("teapot", 418%Z)])%list, fresh)) /\
  returned (HandleAuthorize promptFails) st = (true, Some teapot) /\
  Authorized (st_ar (exitState (HandleAuthorize promptFails) st)) = true.
Proof.
  cbv zeta.
  split; [reflexivity|split; [reflexivity|split; [reflexivity|]]].
  split; [reflexivity|].
  destruct (HandleAuthorize_authorized_despite_error promptFails
              (authorizedRequest GrantHandlerPrompt) alice fresh true teapot
              ((blank ++ [("teapot", 418%Z)])%list, fresh)
              eq_refl eq_refl eq_refl eq_refl) as [Hret [Hflag _]].
  split; [exact Hret|exact Hflag].
Defined.

End HandlerErrorWithGrantSample.

(* ================================================================= *)
(** ** The redirect on the URLs of [net/url] *)

Section NetURLRuns.

Import NetURL.

(** The configured URL has a query of its own: the redirect goes to the
    same location as for the URL without it. The configured URL is no
    prefix of the location, and its query is not in it. *)
Lemma redirectGrant_replaces_query :
  url_Parse consentWithQuery
    = inr (mkURL "https" EmptyString None "example.com" "/consent" "foo=bar"
             EmptyString) /\
  redirectGrant_GrantNeeded (mkRedirectGrant consentWithQuery) bob promptGrant
    unwritten authorizeReq emptyStore
    = ((false, true, None), ([(consentLocation, 302%Z)], emptyStore)) /\
  String.prefix consentWithQuery consentLocation = false /\
  strings_Contains consentLocation "foo=bar" = false.
Proof. repeat split. Qed.

(** The redirect handler on the sample request, once with the consent page
    and once with a URL that does not parse. *)
Lemma redirectGrant_redirects_witness :
  url_Parse consent
    = inr (mkURL "https" EmptyString None "example.com" "/consent" EmptyString
             EmptyString) /\
  redirectGrant_GrantNeeded (mkRedirectGrant consent) bob promptGrant
    unwritten authorizeReq emptyStore
    = ((false, true, None), ([(consentLocation, 302%Z)], emptyStore)) /\
  url_Parse ":consent"
    = inl (errors_New "parse :consent: missing protocol scheme") /\
  fst (fst (redirectGrant_GrantNeeded (mkRedirectGrant ":consent") bob
              promptGrant unwritten authorizeReq emptyStore))
    = (false, false) /\
  snd (redirectGrant_GrantNeeded (mkRedirectGrant ":consent") bob promptGrant
         unwritten authorizeReq emptyStore)
    = (unwritten, emptyStore).
Proof.
  split; [reflexivity|split; [|split; [reflexivity|]]].
  - rewrite (proj1 (redirectGrant_redirects (mkRedirectGrant consent) bob
                      promptGrant unwritten authorizeReq emptyStore)
               _ eq_refl).
    reflexivity.
  - rewrite (proj2 (redirectGrant_redirects (mkRedirectGrant ":consent") bob
                      promptGrant unwritten authorizeReq emptyStore)
               _ eq_refl).
    split; reflexivity.
Defined.

(** A first visit of the client set to [prompt]: the step redirects to the
    consent page. *)
Lemma HandleAuthorize_handled_is_redirect_witness :
  Authorized (st_ar visit) = true /\
  assert_user_Info (UserData (st_ar visit)) = (Some bob, true) /\
  HasAuthorizedClient noGrantOnRecord bob (grantOf (st_ar visit))
    (st_store visit) = ((false, None), emptyStore) /\
  fst (returned
         (HandleAuthorize
            (NewGrantCheck noGrantOnRecord
               (NewPerClientGrant (NewRedirectGrant consent) GrantHandlerDeny)
               reportErrors))
         visit) = true /\
  st_w (exitState
          (HandleAuthorize
             (NewGrantCheck noGrantOnRecord
                (NewPerClientGrant (NewRedirectGrant consent) GrantHandlerDeny)
                reportErrors))
          visit)
    = [(consentLocation, 302%Z)].
Proof.
  split; [reflexivity|split; [reflexivity|split; [reflexivity|]]].
  split; [reflexivity|].
  destruct (HandleAuthorize_handled_is_redirect noGrantOnRecord reportErrors
              consent GrantHandlerDeny visit bob emptyStore
              eq_refl eq_refl eq_refl eq_refl)
    as [_ [_ [_ [redirectURL [Hparse Hw]]]]].
  rewrite Hw. cbn in Hparse. injection Hparse as <-. reflexivity.
Defined.

End NetURLRuns.
